(** * ai-shopping-agent: scrapers, style analyzer and product matcher

    A shallow embedding of the core of the repository:
    - [src/models/product.py]                          (module [Model])
    - [src/scrapers/base.py], [sezane.py], [arket.py],
      [browser.py]                                     (modules [Dom], [Scrapers])
    - [src/vision/style_analyzer.py]                   (modules [Reply], [Analyzer])
    - [src/vision/product_matcher.py]                  (module [Matcher])
    followed by the vocabulary of the statements ([Spec], [MatchSpec],
    [AnalyzerSpec]), concrete inputs ([Examples]) and the proofs.

    Conventions of the embedding.
    - Python [str] is [string]; a character is a byte, so the text
      primitives below agree with Python on ASCII text (case mapping and
      [len] of text outside ASCII are not represented).
    - Values that arrive from [json.loads] are dynamically typed in the
      source and are kept so here ([pyval]).
    - A Python call that can raise returns [exc A].
    - Everything outside the repository that the code talks to (HTTP,
      the browser, the file system, the vision model, [json.loads],
      [base64], [str()]) is a field of the record [World]; the functions
      of the repository take the world as an argument.
    - [BeautifulSoup(html, "lxml")] is the boundary of the scrapers: the
      embedding starts from the parsed tree ([Dom.node]).
    - [print] is not represented. *)

From Stdlib Require Import String Ascii ZArith QArith List Permutation Sorted Lia.
From stdpp Require Import base gmap strings list.

Set Warnings "-register-all".

Open Scope string_scope.
Open Scope Z_scope.
Open Scope list_scope.

(** * Exceptions *)

Inductive exn : Type :=
| ValueError (msg : string)
| TypeError
| IndexError
| AttributeError
| JSONDecodeError
| HTTPError
| OSError
| APIError
| BrowserError
| NotRepresented.

Inductive exc (A : Type) : Type :=
| Ret (a : A)
| Raise (e : exn).
Arguments Ret {A} a.
Arguments Raise {A} e.

#[global] Instance exc_ret : MRet exc := fun A a => Ret a.
#[global] Instance exc_bind : MBind exc := fun A B k m =>
  match m with
  | Ret a => k a
  | Raise e => Raise e
  end.

(** [NotRepresented] is not an exception of Python: it marks the one
    operation whose result the embedding does not give ([Py.lt] on two
    lists).

    [except json.JSONDecodeError] and [except httpx.HTTPError] catch one
    class; [except Exception] catches every exception. *)
Definition is_JSONDecodeError (e : exn) : bool :=
  match e with JSONDecodeError => true | _ => false end.
Definition is_HTTPError (e : exn) : bool :=
  match e with HTTPError => true | _ => false end.

(** * Text primitives of Python used by the sources *)

Module PyStr.

Definition code (c : ascii) : nat := nat_of_ascii c.

(** [str.isspace] and the class [\s] on ASCII. *)
Definition is_space (c : ascii) : bool :=
  let n := code c in
  ((9 <=? n)%nat && (n <=? 13)%nat) || ((28 <=? n)%nat && (n <=? 32)%nat).
Definition is_lower (c : ascii) : bool :=
  let n := code c in (97 <=? n)%nat && (n <=? 122)%nat.
Definition is_upper (c : ascii) : bool :=
  let n := code c in (65 <=? n)%nat && (n <=? 90)%nat.
Definition is_digit (c : ascii) : bool :=
  let n := code c in (48 <=? n)%nat && (n <=? 57)%nat.
Definition to_upper (c : ascii) : ascii :=
  if is_lower c then ascii_of_nat (code c - 32) else c.
Definition to_lower (c : ascii) : ascii :=
  if is_upper c then ascii_of_nat (code c + 32) else c.

(** truthiness of a [str] *)
Definition nonempty (s : string) : bool :=
  match s with EmptyString => false | String _ _ => true end.

(** [s.startswith(p)] *)
Definition startswith (s p : string) : bool := String.prefix p s.

(** [needle in s] *)
Fixpoint contains (needle s : string) : bool :=
  String.prefix needle s ||
  match s with
  | EmptyString => false
  | String _ s' => contains needle s'
  end.

(** [s.split(sep)] for a non-empty [sep]: [skip] counts the characters of
    a separator still to be passed, [cur] is the piece being read. *)
Fixpoint split_go (sep s : string) (skip : nat) (cur : string) : list string :=
  match s with
  | EmptyString => [cur]
  | String c s' =>
      match skip with
      | S k => split_go sep s' k cur
      | O =>
          if String.prefix sep s
          then cur :: split_go sep s' (String.length sep - 1) EmptyString
          else split_go sep s' O (cur +:+ String c EmptyString)
      end
  end.

Definition split (s sep : string) : list string := split_go sep s O EmptyString.

(** [l[i]] on a list of strings, [IndexError] out of range *)
Definition item (l : list string) (i : nat) : exc string :=
  match nth_error l i with
  | Some s => Ret s
  | None => Raise IndexError
  end.

(** [s.split(sep)[0]]: a split has at least one piece *)
Definition split0 (s sep : string) : string := hd EmptyString (split s sep).

(** [s.split(sep)[1]]; the sources only take it after [sep in s] *)
Definition split1 (s sep : string) : string := nth 1 (split s sep) EmptyString.

Fixpoint lstrip (s : string) : string :=
  match s with
  | EmptyString => EmptyString
  | String c s' => if is_space c then lstrip s' else s
  end.

Fixpoint rstrip (s : string) : string :=
  match s with
  | EmptyString => EmptyString
  | String c s' =>
      let r := rstrip s' in
      if is_space c && negb (nonempty r) then EmptyString else String c r
  end.

(** [s.strip()] *)
Definition strip (s : string) : string := rstrip (lstrip s).

(** [s.split()]: pieces between runs of whitespace, none of them empty *)
Fixpoint split_ws_go (s cur : string) : list string :=
  match s with
  | EmptyString => if nonempty cur then [cur] else []
  | String c s' =>
      if is_space c
      then (if nonempty cur then cur :: split_ws_go s' EmptyString
            else split_ws_go s' EmptyString)
      else split_ws_go s' (cur +:+ String c EmptyString)
  end.

Definition split_ws (s : string) : list string := split_ws_go s EmptyString.

(** [s.replace(a, b)] for one-character [a] and [b] *)
Fixpoint replace_char (a b : ascii) (s : string) : string :=
  match s with
  | EmptyString => EmptyString
  | String c s' => String (if Ascii.eqb c a then b else c) (replace_char a b s')
  end.

(** [s.lower()] *)
Fixpoint lower (s : string) : string :=
  match s with
  | EmptyString => EmptyString
  | String c s' => String (to_lower c) (lower s')
  end.

(** [s.title()]: a cased character is upper-cased when the character
    before it is not cased, lower-cased otherwise. *)
Fixpoint title_go (s : string) (prev_cased : bool) : string :=
  match s with
  | EmptyString => EmptyString
  | String c s' =>
      if is_lower c
      then String (if prev_cased then c else to_upper c) (title_go s' true)
      else if is_upper c
      then String (if prev_cased then to_lower c else c) (title_go s' true)
      else String c (title_go s' false)
  end.

Definition title (s : string) : string := title_go s false.

(** [sep.join(l)] on a list of [str] *)
Fixpoint join (sep : string) (l : list string) : string :=
  match l with
  | [] => EmptyString
  | [s] => s
  | s :: l' => s +:+ sep +:+ join sep l'
  end.

(** the longest prefix whose characters satisfy [p], and the rest *)
Fixpoint span (p : ascii -> bool) (s : string) : string * string :=
  match s with
  | EmptyString => (EmptyString, EmptyString)
  | String c s' =>
      if p c then let '(a, b) := span p s' in (String c a, b)
      else (EmptyString, s)
  end.

(** [s[n:]] *)
Fixpoint drop (n : nat) (s : string) : string :=
  match n, s with
  | O, _ => s
  | S k, EmptyString => EmptyString
  | S k, String _ s' => drop k s'
  end.

Definition not_char (cs : string) (c : ascii) : bool :=
  negb (contains (String c EmptyString) cs).

End PyStr.

(** * Values of dynamic type *)

(** A Python [float]: only its order is used. A finite float is the
    rational it denotes. *)
Inductive pyfloat : Type :=
| FNaN
| FInf (negative : bool)
| FFin (q : Q).

(** What [json.loads] can return. A [dict] keeps its items in insertion
    order. *)
Inductive pyval : Type :=
| PyNone
| PyBool (b : bool)
| PyInt (z : Z)
| PyFloat (f : pyfloat)
| PyStr (s : string)
| PyList (l : list pyval)
| PyDict (d : list (string * pyval)).

Module Py.

(** [a < b] on floats; every comparison with NaN is false *)
Definition flt (a b : pyfloat) : bool :=
  match a, b with
  | FNaN, _ | _, FNaN => false
  | _, FInf true => false
  | FInf true, _ => true
  | FInf false, _ => false
  | _, FInf false => true
  | FFin p, FFin q => negb (Qle_bool q p)
  end.

(** [a >= b] on floats *)
Definition fge (a b : pyfloat) : bool :=
  match a, b with
  | FNaN, _ | _, FNaN => false
  | _, FInf true => true
  | FInf true, _ => false
  | FInf false, _ => true
  | _, FInf false => false
  | FFin p, FFin q => Qle_bool q p
  end.

(** The numeric tower: [bool] is a subclass of [int], and an [int] is
    compared with a [float] by value. *)
Definition as_num (v : pyval) : option pyfloat :=
  match v with
  | PyBool b => Some (FFin (inject_Z (if b then 1 else 0)))
  | PyInt z => Some (FFin (inject_Z z))
  | PyFloat f => Some f
  | _ => None
  end.

(** [a >= k] for an [int] [k] *)
Definition ge_int (a : pyval) (k : Z) : exc bool :=
  match as_num a with
  | Some x => Ret (fge x (FFin (inject_Z k)))
  | None => Raise TypeError
  end.

(** [a < b], as [list.sort] asks it of two keys. Numbers are ordered by
    value and strings by code point. Python also orders two lists, item
    by item and with object identity: that case is [NotRepresented]
    (the matcher never asks for it, see [MatcherFacts.sort_desc_spec]). All other
    pairs raise [TypeError]. *)
Definition lt (a b : pyval) : exc bool :=
  match as_num a, as_num b with
  | Some x, Some y => Ret (flt x y)
  | _, _ =>
      match a, b with
      | PyStr s, PyStr t => Ret (String.ltb s t)
      | PyList _, PyList _ => Raise NotRepresented
      | _, _ => Raise TypeError
      end
  end.

(** truthiness *)
Definition truthy (v : pyval) : bool :=
  match v with
  | PyNone => false
  | PyBool b => b
  | PyInt z => negb (z =? 0)
  | PyFloat FNaN => true
  | PyFloat (FInf _) => true
  | PyFloat (FFin q) => negb (Qeq_bool q 0)
  | PyStr s => PyStr.nonempty s
  | PyList l => match l with [] => false | _ => true end
  | PyDict d => match d with [] => false | _ => true end
  end.

(** [d.get(key, default)] on a [dict] *)
Fixpoint dict_get (d : list (string * pyval)) (key : string) (default : pyval) : pyval :=
  match d with
  | [] => default
  | (k, v) :: d' => if String.eqb k key then v else dict_get d' key default
  end.

(** [v.get(key, default)]: only a [dict] has the method *)
Definition get (v : pyval) (key : string) (default : pyval) : exc pyval :=
  match v with
  | PyDict d => Ret (dict_get d key default)
  | _ => Raise AttributeError
  end.

End Py.

(** * src/models/product.py *)

Module Model.

Record Product : Type := mkProduct {
  name : string;
  price : string;
  url : string;
  image_url : string;
  retailer : string;
  category : option string;
  colors : list string;
  sizes : list string;
  description : option string
}.

(** [Product(name=…, price=…, url=…, image_url=…, retailer=…, colors=…)]
    with the defaults of the dataclass for the other fields *)
Definition new_product (name price url image_url retailer : string)
    (colors : list string) : Product :=
  mkProduct name price url image_url retailer None colors [] None.

End Model.

(** * The tree BeautifulSoup hands to the scrapers *)

Module Dom.

(** Elements and plain text. Comments, CDATA and the text of script and
    style elements (other string classes of BeautifulSoup) are not
    represented. The value of an attribute is its text. *)
Inductive node : Type :=
| Text (s : string)
| Elem (tag : string) (attrs : list (string * string)) (children : list node).

(** A place in the tree: the node and its ancestors, the parent first.
    The root (the [BeautifulSoup] object) has no ancestor. *)
Definition loc : Type := node * list node.

(** every node below [n], in document order *)
Fixpoint descendants (anc : list node) (n : node) : list loc :=
  match n with
  | Text _ => []
  | Elem _ _ cs =>
      (fix go (l : list node) : list loc :=
         match l with
         | [] => []
         | c :: l' => (c, n :: anc) :: descendants (n :: anc) c ++ go l'
         end) cs
  end.

Definition tag_of (n : node) : option string :=
  match n with
  | Text _ => None
  | Elem t _ _ => Some t
  end.

Fixpoint assoc (l : list (string * string)) (k : string) : option string :=
  match l with
  | [] => None
  | (k', v) :: l' => if String.eqb k' k then Some v else assoc l' k
  end.

(** [tag.get(k)]: [None] when the attribute is absent *)
Definition get (n : node) (k : string) : option string :=
  match n with
  | Text _ => None
  | Elem _ attrs _ => assoc attrs k
  end.

(** [tag.get(k, "")] *)
Definition get_or_empty (n : node) (k : string) : string :=
  match get n k with
  | Some v => v
  | None => EmptyString
  end.

(** [a or b] where both are [str] or [None] *)
Definition or_str (a b : option string) : option string :=
  match a with
  | Some s => if PyStr.nonempty s then a else b
  | None => b
  end.

Definition is_tag (t : string) (n : node) : bool :=
  match tag_of n with
  | Some t' => String.eqb t' t
  | None => false
  end.

(** the simple selector [[k*="v"]] *)
Definition attr_contains (k v : string) (n : node) : bool :=
  match get n k with
  | Some a => PyStr.contains v a
  | None => false
  end.

(** the simple selector [[k]] *)
Definition has_attr (k : string) (n : node) : bool :=
  match get n k with
  | Some _ => true
  | None => false
  end.

(** [root.select(sel)]: the elements below [root] that match, in document
    order; a selector sees the element and its ancestors. *)
Definition select (root : node) (sel : loc -> bool) : list loc :=
  List.filter sel (descendants [] root).

(** first element of a list that [f] accepts *)
Fixpoint first_some {A B : Type} (f : A -> option B) (l : list A) : option B :=
  match l with
  | [] => None
  | a :: l' =>
      match f a with
      | Some b => Some b
      | None => first_some f l'
      end
  end.

(** [n.select_one(sel)] for a selector that looks at the element only,
    and [n.find(name)] *)
Definition select_one (n : node) (sel : node -> bool) : option node :=
  first_some (fun l : loc => if sel (fst l) then Some (fst l) else None)
             (descendants [] n).

Definition find (n : node) (name : string) : option node :=
  select_one n (is_tag name).

(** [n.find(string=re.compile(…))]: the first string below [n] that the
    pattern is found in *)
Definition find_string (n : node) (found : string -> bool) : option string :=
  first_some (fun l : loc =>
                match fst l with
                | Text s => if found s then Some s else None
                | Elem _ _ _ => None
                end)
             (descendants [] n).

(** [n.get_text(strip=True)]: the strings below [n], each stripped, the
    empty ones dropped, joined without separator *)
Definition get_text_strip (n : node) : string :=
  fold_right (fun (l : loc) acc =>
                match fst l with
                | Text s => PyStr.strip s +:+ acc
                | Elem _ _ _ => acc
                end)
             EmptyString (descendants [] n).

(** The loops [parent = link.parent; for _ in range(k): if parent: …;
    parent = parent.parent]: [probe] is tried on at most [k] ancestors,
    the nearest first, and the first answer ends the loop. *)
Fixpoint ascend {A : Type} (k : nat) (parents : list node)
    (probe : node -> option A) : option A :=
  match k with
  | O => None
  | S k' =>
      match parents with
      | [] => None
      | p :: up =>
          match probe p with
          | Some a => Some a
          | None => ascend k' up probe
          end
      end
  end.

End Dom.

(** * The world outside the repository *)

(** An [httpx] response, as far as the sources read it. *)
Record response : Type := mkResponse {
  is_success : bool;               (* [raise_for_status()] returns *)
  text : string;                   (* [response.text] *)
  content_type : option string;    (* [response.headers.get("content-type")] *)
  content : string                 (* [response.content], the bytes *)
}.

(** A content block of a request to the vision model. *)
Inductive block : Type :=
| ImageBlock (media_type data : string)
| TextBlock (prompt : string).

(** A content block of its reply: only a text block has [.text]. *)
Inductive reply_block : Type :=
| ReplyText (t : string)
| ReplyOther.

Record World : Type := mkWorld {
  (** [client.get(url)] of an [httpx.Client] *)
  http_get : string -> exc response;
  (** [BeautifulSoup(html, "lxml")] *)
  soup : string -> Dom.node;
  (** [path.exists()] *)
  path_exists : string -> bool;
  (** [open(path, "rb").read()] *)
  read_bytes : string -> exc string;
  (** [base64.standard_b64encode(b).decode("utf-8")] *)
  b64encode : string -> string;
  (** [client.messages.create(model=…, max_tokens=…, messages=[{"role":
      "user", "content": content}]).content] *)
  messages_create : string -> Z -> list block -> exc (list reply_block);
  (** [json.loads(s)]; [None] is [json.JSONDecodeError] *)
  json_loads : string -> option pyval;
  (** [str(v)] for a value that is not a [str] *)
  py_str : pyval -> string;
  (** Playwright: [_init_browser()]; the steps of [fetch_page] from
      [new_page()] to [page.close()], giving [page.content()]; and
      [_close_browser()] *)
  browser_start : exc unit;
  browser_page : string -> exc string;
  browser_stop : exc unit
}.

(** [response.raise_for_status()] *)
Definition raise_for_status (r : response) : exc unit :=
  if is_success r then Ret tt else Raise HTTPError.

(** * src/scrapers *)

Module Scrapers.
Import Model Dom.

(** ** base.py *)

(** [BaseScraper.fetch_page]: [None] on [httpx.HTTPError], any other
    exception of the client passes through. *)
Definition fetch_page (w : World) (url : string) : exc (option string) :=
  match (r ← http_get w url; _ ← raise_for_status r; mret (text r)) with
  | Ret t => Ret (Some t)
  | Raise e => if is_HTTPError e then Ret None else Raise e
  end.

(** [BaseScraper.scrape_new_arrivals], over the two abstract methods *)
Definition scrape_new_arrivals (w : World) (get_new_arrivals_url : string)
    (parse_products : string -> list Product) : exc (list Product) :=
  html ← fetch_page w get_new_arrivals_url;
  match html with
  | Some h => if PyStr.nonempty h then Ret (parse_products h) else Ret []
  | None => Ret []
  end.

(** The image of a product link, common to both scrapers: the first
    [img] below the link, else below one of its three nearest
    ancestors. *)
Definition find_img (link : loc) : option node :=
  match find (fst link) "img" with
  | Some img => Some img
  | None => ascend 3 (snd link) (fun parent => find parent "img")
  end.

(** [image_url] from the [img] found. [srcset.split(",")[0].split()[0]]
    raises [IndexError] when the first candidate is blank. *)
Definition image_url_of (BASE_URL : string) (img : option node) : exc string :=
  match img with
  | None => Ret EmptyString
  | Some img =>
      let image_url :=
        match or_str (get img "src") (get img "data-src") with
        | Some s => s
        | None => EmptyString
        end in
      image_url ←
        (if negb (PyStr.nonempty image_url) && PyStr.nonempty (get_or_empty img "srcset")
         then PyStr.item (PyStr.split_ws (PyStr.split0 (get_or_empty img "srcset") ",")) 0
         else Ret image_url);
      if PyStr.nonempty image_url && negb (PyStr.startswith image_url "http")
      then Ret (if PyStr.startswith image_url "//"
                then "https:" +:+ image_url
                else BASE_URL +:+ image_url)
      else Ret image_url
  end.

(** the selector [[class*="price"], [class*="Price"]] *)
Definition price_sel (n : node) : bool :=
  attr_contains "class" "price" n || attr_contains "class" "Price" n.

(** ** sezane.py *)

Module Sezane.

Definition BASE_URL : string := "https://www.sezane.com".

Definition get_new_arrivals_url : string := BASE_URL +:+ "/us-en/new-in".

(** [re.search(r'/product/([^/]+)', s)], group 1 *)
Fixpoint search_slug (s : string) : option string :=
  match s with
  | EmptyString => None
  | String _ s' =>
      if String.prefix "/product/" s
      then let g := fst (PyStr.span (PyStr.not_char "/") (PyStr.drop 9 s)) in
           if PyStr.nonempty g then Some g else search_slug s'
      else search_slug s'
  end.

(** [/product/[^/]+/([^/?#]+)] matched at the start of [s], group 1 *)
Definition match_color (s : string) : option string :=
  if String.prefix "/product/" s
  then let '(g1, r1) := PyStr.span (PyStr.not_char "/") (PyStr.drop 9 s) in
       if PyStr.nonempty g1
       then match r1 with
            | String "/" r2 =>
                let g2 := fst (PyStr.span (PyStr.not_char "/?#") r2) in
                if PyStr.nonempty g2 then Some g2 else None
            | _ => None
            end
       else None
  else None.

(** [re.search(r'/product/[^/]+/([^/?#]+)', s)], group 1 *)
Fixpoint search_color (s : string) : option string :=
  match s with
  | EmptyString => None
  | String _ s' =>
      match match_color s with
      | Some g => Some g
      | None => search_color s'
      end
  end.

(** [\s+Sezane\s+X\s+] with [re.IGNORECASE] matched at the start of
    [s]: the number of characters matched *)
Definition match_sezane_x (s : string) : option nat :=
  let '(w1, r1) := PyStr.span PyStr.is_space s in
  let r2 := PyStr.drop 6 r1 in
  let '(w2, r3) := PyStr.span PyStr.is_space r2 in
  let r4 := PyStr.drop 1 r3 in
  let '(w3, r5) := PyStr.span PyStr.is_space r4 in
  if PyStr.nonempty w1 && String.prefix "sezane" (PyStr.lower r1)
     && PyStr.nonempty w2 && String.prefix "x" (PyStr.lower r3)
     && PyStr.nonempty w3
  then Some (String.length s - String.length r5)%nat
  else None.

(** [re.sub(r'\s+Sezane\s+X\s+', ' × ', s, flags=re.IGNORECASE)] *)
Fixpoint sub_sezane_x_go (s : string) (skip : nat) : string :=
  match s with
  | EmptyString => EmptyString
  | String c s' =>
      match skip with
      | S k => sub_sezane_x_go s' k
      | O =>
          match match_sezane_x s with
          | Some n => " × " +:+ sub_sezane_x_go s' (n - 1)
          | None => String c (sub_sezane_x_go s' O)
          end
      end
  end.

Definition sub_sezane_x (s : string) : string := sub_sezane_x_go s O.

(** [re.search(r'\$\d+', s)] finds something *)
Fixpoint search_dollar (s : string) : bool :=
  match s with
  | EmptyString => false
  | String c s' =>
      (Ascii.eqb c "$" &&
       match s' with
       | String d _ => PyStr.is_digit d
       | EmptyString => false
       end) || search_dollar s'
  end.

(** the price, read from one ancestor of the link *)
Definition price_at (parent : node) : option string :=
  match find_string parent search_dollar with
  | Some price_elem => Some (PyStr.strip price_elem)
  | None =>
      match select_one parent price_sel with
      | Some price_div => Some (get_text_strip price_div)
      | None => None
      end
  end.

(** [SezaneScraper._parse_product_link] *)
Definition _parse_product_link (link : loc) (base_url full_url : string) : exc Product :=
  let name :=
    match search_slug base_url with
    | Some name_slug => sub_sezane_x (PyStr.title (PyStr.replace_char "-" " " name_slug))
    | None => "Unknown"
    end in
  let colors :=
    match search_color base_url with
    | Some c => [PyStr.title (PyStr.replace_char "-" " " c)]
    | None => []
    end in
  let url := base_url in
  image_url ← image_url_of BASE_URL (find_img link);
  let price :=
    match ascend 4 (snd link) price_at with
    | Some p => p
    | None => "N/A"
    end in
  Ret (new_product name price url image_url "Sezane" colors).

(** the selector [a[href*="/product/"]] *)
Definition link_sel (l : loc) : bool :=
  is_tag "a" (fst l) && attr_contains "href" "/product/" (fst l).

(** the normalized URL of an anchor: [None] when the loop passes over
    the anchor before normalizing *)
Definition normalize (link : loc) : option (string * string) :=
  let href := get_or_empty (fst link) "href" in
  if negb (PyStr.nonempty href) || negb (PyStr.contains "/product/" href)
  then None
  else
    let full_url := if PyStr.startswith href "http" then href else BASE_URL +:+ href in
    let base_url := PyStr.split0 full_url "#" in
    Some (base_url, full_url).

(** The body of [for link in product_links], with the two variables the
    loop updates. [try … except Exception: continue] drops an anchor
    whose parsing raises; its URL is in [seen_urls] by then. A [Product]
    is always truthy, so [if product:] always appends. *)
Fixpoint loop (product_links : list loc) (seen_urls : gset string)
    (products : list Product) : list Product :=
  match product_links with
  | [] => products
  | link :: rest =>
      match normalize link with
      | None => loop rest seen_urls products
      | Some (base_url, full_url) =>
          if decide (base_url ∈ seen_urls)
          then loop rest seen_urls products
          else
            let seen_urls := seen_urls ∪ {[base_url]} in
            match _parse_product_link link base_url full_url with
            | Ret product => loop rest seen_urls (products ++ [product])
            | Raise _ => loop rest seen_urls products
            end
      end
  end.

(** [SezaneScraper.parse_products], from the parsed tree *)
Definition parse_tree (soup : node) : list Product :=
  loop (select soup link_sel) ∅ [].

Definition parse_products (w : World) (html : string) : list Product :=
  parse_tree (soup w html).

(** [SezaneScraper.scrape_new_arrivals], inherited from [BaseScraper] *)
Definition scrape_new_arrivals (w : World) : exc (list Product) :=
  Scrapers.scrape_new_arrivals w get_new_arrivals_url (parse_products w).

End Sezane.

(** ** arket.py *)

Module Arket.

Definition BASE_URL : string := "https://www.arket.com".

Definition get_new_arrivals_url : string := BASE_URL +:+ "/en-ww/women/new-arrivals/".

(** [re.search(r'/p/([^/?]+)', s)], group 1 *)
Fixpoint search_p (s : string) : option string :=
  match s with
  | EmptyString => None
  | String _ s' =>
      if String.prefix "/p/" s
      then let g := fst (PyStr.span (PyStr.not_char "/?") (PyStr.drop 3 s)) in
           if PyStr.nonempty g then Some g else search_p s'
      else search_p s'
  end.

(** the longest [g] with [s = g + ".html" + …] *)
Fixpoint before_last_html (s : string) : option string :=
  match s with
  | EmptyString => None
  | String c s' =>
      match before_last_html s' with
      | Some g => Some (String c g)
      | None => if String.prefix ".html" s then Some EmptyString else None
      end
  end.

(** [re.search(r'/([^/]+)\.html', s)], group 1: the greedy group gives
    back characters until [.html] follows. *)
Fixpoint search_html (s : string) : option string :=
  match s with
  | EmptyString => None
  | String c s' =>
      match (if Ascii.eqb c "/"
             then before_last_html (fst (PyStr.span (PyStr.not_char "/") s'))
             else None) with
      | Some g => if PyStr.nonempty g then Some g else search_html s'
      | None => search_html s'
      end
  end.

(** the selector [[class*="name"], [class*="title"], h2, h3, span] *)
Definition name_sel (n : node) : bool :=
  attr_contains "class" "name" n || attr_contains "class" "title" n
  || is_tag "h2" n || is_tag "h3" n || is_tag "span" n.

(** [not name] for a name that is [None] or a [str] *)
Definition no_name (name : option string) : bool :=
  match name with
  | Some s => negb (PyStr.nonempty s)
  | None => true
  end.

(** [ArketScraper._parse_product_link] *)
Definition _parse_product_link (link : loc) (url : string) : exc Product :=
  let name : option string := None in
  let link_text := get_text_strip (fst link) in
  let name :=
    if PyStr.nonempty link_text
       && (3 <? String.length link_text)%nat && (String.length link_text <? 100)%nat
    then Some link_text else name in
  let name :=
    if no_name name
    then match select_one (fst link) name_sel with
         | Some name_elem => Some (get_text_strip name_elem)
         | None => name
         end
    else name in
  let name : string :=
    match (if no_name name then None else name) with
    | Some s => s
    | None =>
        match (match search_p url with
               | Some g => Some g
               | None => search_html url
               end) with
        | Some g => PyStr.title (PyStr.replace_char "-" " " g)
        | None => "Unknown"
        end
    end in
  image_url ← image_url_of BASE_URL (find_img link);
  let price :=
    match ascend 4 (snd link)
            (fun parent =>
               match select_one parent price_sel with
               | Some price_elem => Some (get_text_strip price_elem)
               | None => None
               end) with
    | Some p => p
    | None => "N/A"
    end in
  Ret (new_product name price url image_url "Arket" []).

(** the selector [a[href*="/p/"], a[href*="/product"]] *)
Definition link_sel (l : loc) : bool :=
  is_tag "a" (fst l)
  && (attr_contains "href" "/p/" (fst l) || attr_contains "href" "/product" (fst l)).

(** the selector [[class*="product"] a[href]] *)
Definition fallback_sel (l : loc) : bool :=
  is_tag "a" (fst l) && has_attr "href" (fst l)
  && existsb (attr_contains "class" "product") (snd l).

(** the normalized URL of an anchor: [None] when the loop passes over
    the anchor before normalizing *)
Definition normalize (link : loc) : option string :=
  let href := get_or_empty (fst link) "href" in
  if negb (PyStr.nonempty href)
     || (negb (PyStr.contains "/p/" href) && negb (PyStr.contains "/product" href))
  then None
  else
    let full_url := if PyStr.startswith href "http" then href else BASE_URL +:+ href in
    Some (PyStr.split0 full_url "?").

(** the body of [for link in product_links], as in [Sezane.loop] *)
Fixpoint loop (product_links : list loc) (seen_urls : gset string)
    (products : list Product) : list Product :=
  match product_links with
  | [] => products
  | link :: rest =>
      match normalize link with
      | None => loop rest seen_urls products
      | Some base_url =>
          if decide (base_url ∈ seen_urls)
          then loop rest seen_urls products
          else
            let seen_urls := seen_urls ∪ {[base_url]} in
            match _parse_product_link link base_url with
            | Ret product => loop rest seen_urls (products ++ [product])
            | Raise _ => loop rest seen_urls products
            end
      end
  end.

(** the anchors the loop runs over *)
Definition product_links (soup : node) : list loc :=
  match select soup link_sel with
  | [] => select soup fallback_sel
  | links => links
  end.

(** [ArketScraper.parse_products], from the parsed tree *)
Definition parse_tree (soup : node) : list Product :=
  loop (product_links soup) ∅ [].

Definition parse_products (w : World) (html : string) : list Product :=
  parse_tree (soup w html).

(** ** browser.py, and [ArketScraper.scrape_new_arrivals] *)

(** [BrowserScraper.fetch_page]: [except Exception] gives [None] *)
Definition fetch_page (w : World) (url : string) : option string :=
  match browser_page w url with
  | Ret html => Some html
  | Raise _ => None
  end.

(** [try: body finally: closing]: an exception of [closing] replaces
    the outcome of [body] *)
Definition try_finally {A : Type} (body : exc A) (closing : exc unit) : exc A :=
  match closing with
  | Ret _ => body
  | Raise e => Raise e
  end.

(** [BrowserScraper.scrape_new_arrivals_async] with [debug=False], which
    [BrowserScraper.scrape_new_arrivals] runs to completion *)
Definition scrape_new_arrivals_async (w : World) : exc (list Product) :=
  _ ← browser_start w;
  try_finally
    (match fetch_page w get_new_arrivals_url with
     | Some html => if PyStr.nonempty html then Ret (parse_products w html) else Ret []
     | None => Ret []
     end)
    (browser_stop w).

(** [ArketScraper.scrape_new_arrivals]: [BROWSER_AVAILABLE] holds once
    the module is imported *)
Definition scrape_new_arrivals (w : World) : exc (list Product) :=
  scrape_new_arrivals_async w.

End Arket.

End Scrapers.

(** * What both vision modules do with a reply of the model *)

Module Reply.

(** the double quote, to write the instruction texts *)
Definition dq : string := String (ascii_of_nat 34) EmptyString.

(** The [if "```json" in response_text: … elif "```" in response_text: …]
    clean-up of markdown fencing. *)
Definition clean_markdown (response_text : string) : string :=
  if PyStr.contains "```json" response_text
  then PyStr.split0 (PyStr.split1 response_text "```json") "```"
  else if PyStr.contains "```" response_text
  then PyStr.split0 (PyStr.split1 response_text "```") "```"
  else response_text.

(** [response.content[0].text] *)
Definition first_text (content : list reply_block) : exc string :=
  match content with
  | [] => Raise IndexError
  | ReplyText t :: _ => Ret t
  | ReplyOther :: _ => Raise AttributeError
  end.

(** [json.loads(response_text.strip())] *)
Definition loads (w : World) (response_text : string) : exc pyval :=
  match json_loads w (PyStr.strip response_text) with
  | Some v => Ret v
  | None => Raise JSONDecodeError
  end.

Definition MODEL : string := "claude-sonnet-4-20250514".

End Reply.

(** * src/vision/style_analyzer.py *)

Module Analyzer.
Import Reply.

(** The fields are annotated [list[str]] and [str]; [from_dict] stores
    whatever the document holds, so they are values of dynamic type. *)
Record StyleProfile : Type := mkStyleProfile {
  color_palette : pyval;
  preferred_styles : pyval;
  silhouettes : pyval;
  patterns : pyval;
  materials : pyval;
  aesthetics : pyval;
  avoid : pyval;
  summary : pyval
}.

(** [StyleProfile.to_dict] *)
Definition to_dict (self : StyleProfile) : pyval :=
  PyDict [ ("color_palette", color_palette self);
           ("preferred_styles", preferred_styles self);
           ("silhouettes", silhouettes self);
           ("patterns", patterns self);
           ("materials", materials self);
           ("aesthetics", aesthetics self);
           ("avoid", avoid self);
           ("summary", summary self) ].

Definition field_names : list string :=
  [ "color_palette"; "preferred_styles"; "silhouettes"; "patterns";
    "materials"; "aesthetics"; "avoid"; "summary" ].

(** [StyleProfile.from_dict], the constructor called with the items of
    [data] as keyword arguments: [data] has to be a
    mapping whose keys are field names; a field that is absent takes the
    default of the dataclass. *)
Definition from_dict (data : pyval) : exc StyleProfile :=
  match data with
  | PyDict d =>
      if forallb (fun kv : string * pyval => existsb (String.eqb (fst kv)) field_names) d
      then Ret (mkStyleProfile
                  (Py.dict_get d "color_palette" (PyList []))
                  (Py.dict_get d "preferred_styles" (PyList []))
                  (Py.dict_get d "silhouettes" (PyList []))
                  (Py.dict_get d "patterns" (PyList []))
                  (Py.dict_get d "materials" (PyList []))
                  (Py.dict_get d "aesthetics" (PyList []))
                  (Py.dict_get d "avoid" (PyList []))
                  (Py.dict_get d "summary" (PyStr EmptyString)))
      else Raise TypeError
  | _ => Raise TypeError
  end.

(** [StyleProfile(summary="Could not parse style profile")] *)
Definition could_not_parse : StyleProfile :=
  mkStyleProfile (PyList []) (PyList []) (PyList []) (PyList []) (PyList [])
                 (PyList []) (PyList []) (PyStr "Could not parse style profile").

(** A [Path] is its text. [path.name]: what follows the last slash. *)
Fixpoint path_name (path : string) : string :=
  match path with
  | EmptyString => EmptyString
  | String c rest =>
      if PyStr.contains "/" rest then path_name rest
      else if Ascii.eqb c "/" then rest else path
  end.

(** [name[name.rfind('.'):]], if there is a dot *)
Fixpoint from_last_dot (name : string) : option string :=
  match name with
  | EmptyString => None
  | String c rest =>
      match from_last_dot rest with
      | Some r => Some r
      | None => if Ascii.eqb c "." then Some name else None
      end
  end.

(** [path.suffix]: from the last dot of the name, unless the dot is the
    first or the last character of the name *)
Definition path_suffix (path : string) : string :=
  let name := path_name path in
  match from_last_dot name with
  | Some suf =>
      if (String.length suf <? String.length name)%nat && (1 <? String.length suf)%nat
      then suf else EmptyString
  | None => EmptyString
  end.

Definition media_types : list (string * string) :=
  [ (".jpg", "image/jpeg"); (".jpeg", "image/jpeg"); (".png", "image/png");
    (".gif", "image/gif"); (".webp", "image/webp") ].

(** [media_types.get(path.suffix.lower(), "image/jpeg")] *)
Definition media_type_of (path : string) : string :=
  let suffix := PyStr.lower (path_suffix path) in
  match Dom.assoc media_types suffix with
  | Some t => t
  | None => "image/jpeg"
  end.

(** [StyleAnalyzer._load_image]: opening or reading the file can raise *)
Definition _load_image (w : World) (path : string) : exc (string * string) :=
  let media_type := media_type_of path in
  bytes ← read_bytes w path;
  Ret (b64encode w bytes, media_type).

(** [StyleAnalyzer._fetch_image_url] *)
Definition _fetch_image_url (w : World) (url : string) : option (string * string) :=
  match (r ← http_get w url;
         _ ← raise_for_status r;
         let content_type :=
           match content_type r with Some t => t | None => "image/jpeg" end in
         let content_type :=
           if PyStr.contains ";" content_type
           then PyStr.split0 content_type ";" else content_type in
         Ret (b64encode w (content r), content_type)) with
  | Ret x => Some x
  | Raise _ => None
  end.

Definition ANALYSIS_PROMPT : string :=
  "Analyze these style reference images to create a comprehensive style profile.
These images represent the user's personal style preferences - they may be outfit photos,
fashion inspiration, or items they own and love.

Extract and return a JSON object with these fields:
{
    " +:+ dq +:+
  "color_palette" +:+ dq +:+
  ": [" +:+ dq +:+
  "list of preferred colors, be specific (e.g., 'warm beige', 'navy blue', 'forest green')" +:+ dq +:+
  "],
    " +:+ dq +:+
  "preferred_styles" +:+ dq +:+
  ": [" +:+ dq +:+
  "list of style categories (e.g., 'French minimalist', 'bohemian', 'classic tailored')" +:+ dq +:+
  "],
    " +:+ dq +:+
  "silhouettes" +:+ dq +:+
  ": [" +:+ dq +:+
  "preferred fits and shapes (e.g., 'high-waisted', 'oversized blazers', 'midi length')" +:+ dq +:+
  "],
    " +:+ dq +:+
  "patterns" +:+ dq +:+
  ": [" +:+ dq +:+
  "preferred patterns (e.g., 'subtle stripes', 'florals', 'solid colors')" +:+ dq +:+
  "],
    " +:+ dq +:+
  "materials" +:+ dq +:+
  ": [" +:+ dq +:+
  "preferred fabrics (e.g., 'linen', 'cashmere', 'silk')" +:+ dq +:+
  "],
    " +:+ dq +:+
  "aesthetics" +:+ dq +:+
  ": [" +:+ dq +:+
  "overall aesthetic descriptors (e.g., 'effortless chic', 'understated elegance')" +:+ dq +:+
  "],
    " +:+ dq +:+
  "avoid" +:+ dq +:+
  ": [" +:+ dq +:+
  "styles/elements that seem absent or contrary to the aesthetic" +:+ dq +:+
  "],
    " +:+ dq +:+
  "summary" +:+ dq +:+
  ": " +:+ dq +:+
  "A 2-3 sentence description of the overall style identity" +:+ dq +:+
  "
}

Return ONLY the JSON object, no other text.".

(** The loop [for path in image_paths[:10]] over the paths still to
    visit, with the [content] built so far. *)
Fixpoint load_images (w : World) (paths : list string) (content : list block)
    : exc (list block) :=
  match paths with
  | [] => Ret content
  | path :: rest =>
      if negb (path_exists w path)
      then load_images w rest content
      else
        '(data, media_type) ← _load_image w path;
        load_images w rest (content ++ [ImageBlock media_type data])
  end.

(** from [response.content] to the profile: the part of
    [analyze_style_images] after the call of the model *)
Definition parse_response (w : World) (reply : list reply_block) : exc StyleProfile :=
  response_text ← first_text reply;
  let response_text := clean_markdown response_text in
  match (data ← loads w response_text; from_dict data) with
  | Ret profile => Ret profile
  | Raise e => if is_JSONDecodeError e then Ret could_not_parse else Raise e
  end.

(** [StyleAnalyzer.analyze_style_images] *)
Definition analyze_style_images (w : World) (image_paths : list string) : exc StyleProfile :=
  match image_paths with
  | [] => Raise (ValueError "No images provided")
  | _ =>
      content ← load_images w (take 10 image_paths) [];
      match content with
      | [] => Raise (ValueError "No valid images found")
      | _ =>
          let content := content ++ [TextBlock ANALYSIS_PROMPT] in
          reply ← messages_create w MODEL 1500 content;
          parse_response w reply
      end
  end.

(** The profile files, as the JSON documents they hold: [json.dump]
    writes the document of a profile and [json.load] reads it back. *)
Record Files : Type := mkFiles {
  documents : gmap string pyval;
  (** [open(path, "w")] succeeds *)
  can_write : string -> bool
}.

(** [StyleAnalyzer.save_profile] *)
Definition save_profile (fs : Files) (profile : StyleProfile) (path : string) : exc Files :=
  if can_write fs path
  then Ret (mkFiles (<[path := to_dict profile]> (documents fs)) (can_write fs))
  else Raise OSError.

(** [StyleAnalyzer.load_profile] *)
Definition load_profile (fs : Files) (path : string) : exc StyleProfile :=
  match documents fs !! path with
  | Some document => from_dict document
  | None => Raise OSError
  end.

End Analyzer.

(** * src/vision/product_matcher.py *)

Module Matcher.
Import Model Reply Analyzer.

(** The four fields read from the reply are values of dynamic type;
    [score] is annotated [int], with the comment [# 1-10]. *)
Record MatchResult : Type := mkMatchResult {
  product : Product;
  score : pyval;
  reasoning : pyval;
  style_notes : pyval;
  suggested_pairings : pyval
}.

(** [ProductMatcher._fetch_image] *)
Definition _fetch_image (w : World) (url : string) : option (string * string) :=
  match (r ← http_get w url;
         _ ← raise_for_status r;
         let content_type :=
           match content_type r with Some t => t | None => "image/jpeg" end in
         let content_type :=
           if PyStr.contains ";" content_type
           then PyStr.split0 content_type ";" else content_type in
         if negb (PyStr.startswith content_type "image/")
         then Ret None
         else Ret (Some (b64encode w (content r), content_type))) with
  | Ret x => x
  | Raise _ => None
  end.

(** [{v}] in an f-string *)
Definition format (w : World) (v : pyval) : string :=
  match v with
  | PyStr s => s
  | _ => py_str w v
  end.

Fixpoint all_str (l : list pyval) : exc (list string) :=
  match l with
  | [] => Ret []
  | PyStr s :: l' => rest ← all_str l'; Ret (s :: rest)
  | _ :: _ => Raise TypeError
  end.

Fixpoint chars (s : string) : list string :=
  match s with
  | EmptyString => []
  | String c s' => String c EmptyString :: chars s'
  end.

(** [sep.join(v)]: [v] has to be iterable (a list, the characters of a
    [str], the keys of a [dict]) and its items [str] *)
Definition join_val (sep : string) (v : pyval) : exc string :=
  match v with
  | PyList l => items ← all_str l; Ret (PyStr.join sep items)
  | PyStr s => Ret (PyStr.join sep (chars s))
  | PyDict d => Ret (PyStr.join sep (map fst d))
  | _ => Raise TypeError
  end.

Definition nl : string := String (ascii_of_nat 10) EmptyString.

(** [if v: parts.append(f"label{', '.join(v)}")] *)
Definition append_joined (label : string) (v : pyval) (parts : list string)
    : exc (list string) :=
  if Py.truthy v
  then t ← join_val ", " v; Ret (parts ++ [label +:+ t])
  else Ret parts.

(** [ProductMatcher._build_profile_context] *)
Definition _build_profile_context (w : World) (p : StyleProfile) : exc string :=
  let parts : list string := [] in
  let parts :=
    if Py.truthy (summary p)
    then parts ++ ["Style Summary: " +:+ format w (summary p)] else parts in
  parts ← append_joined "Preferred Colors: " (color_palette p) parts;
  parts ← append_joined "Style Categories: " (preferred_styles p) parts;
  parts ← append_joined "Preferred Silhouettes: " (silhouettes p) parts;
  parts ← append_joined "Preferred Patterns: " (patterns p) parts;
  parts ← append_joined "Preferred Materials: " (materials p) parts;
  parts ← append_joined "Aesthetic: " (aesthetics p) parts;
  parts ← append_joined "Tends to Avoid: " (avoid p) parts;
  Ret (PyStr.join nl parts).

(** the instruction text of [match_product] *)
Definition match_prompt (profile_context : string) (product : Product) : string :=
  let colors_text :=
    match colors product with
    | [] => "Not specified"
    | cs => PyStr.join ", " cs
    end in
  "Analyze this product image and determine how well it matches the following style profile:

" +:+
  profile_context +:+
  "

Product Info:
- Name: " +:+
  name product +:+
  "
- Price: " +:+
  price product +:+
  "
- Colors: " +:+
  colors_text +:+
  "

Return a JSON object with:
{
    " +:+ dq +:+
  "score" +:+ dq +:+
  ": <1-10 integer, where 10 is perfect match>,
    " +:+ dq +:+
  "reasoning" +:+ dq +:+
  ": " +:+ dq +:+
  "<2-3 sentences explaining the score>" +:+ dq +:+
  ",
    " +:+ dq +:+
  "style_notes" +:+ dq +:+
  ": " +:+ dq +:+
  "<how this piece fits or doesn't fit the aesthetic>" +:+ dq +:+
  ",
    " +:+ dq +:+
  "suggested_pairings" +:+ dq +:+
  ": [" +:+ dq +:+
  "<2-3 items from their wardrobe this would pair with>" +:+ dq +:+
  "]
}

Be honest and critical. A score of 7+ means it's a strong match worth buying.
A score of 5-6 means it could work but isn't ideal.
Below 5 means it doesn't align well with the style profile.

Return ONLY the JSON object.".

(** [ProductMatcher.match_product]. The profile context is built before
    the [try]; everything from the call of the model on is inside it. *)
Definition match_product (w : World) (profile : StyleProfile) (product : Product)
    : exc (option MatchResult) :=
  if negb (PyStr.nonempty (image_url product)) then Ret None
  else
    match _fetch_image w (image_url product) with
    | None => Ret None
    | Some (data, media_type) =>
        profile_context ← _build_profile_context w profile;
        let content := [ ImageBlock media_type data;
                         TextBlock (match_prompt profile_context product) ] in
        match (reply ← messages_create w MODEL 500 content;
               response_text ← first_text reply;
               let response_text := clean_markdown response_text in
               result ← loads w response_text;
               score ← Py.get result "score" (PyInt 0);
               reasoning ← Py.get result "reasoning" (PyStr EmptyString);
               style_notes ← Py.get result "style_notes" (PyStr EmptyString);
               suggested_pairings ← Py.get result "suggested_pairings" (PyList []);
               Ret (mkMatchResult product score reasoning style_notes suggested_pairings)) with
        | Ret r => Ret (Some r)
        | Raise _ => Ret None
        end
    end.

(** [l[:n]] *)
Definition slice_to {A : Type} (l : list A) (n : Z) : list A :=
  if n <? 0
  then take (length l - Z.to_nat (- n)) l
  else take (Z.to_nat n) l.

(** The products a task is submitted for: those with an image, cut to
    [limit] when [limit] is truthy. *)
Definition dispatched (products : list Product) (limit : option Z) : list Product :=
  let products_with_images :=
    List.filter (fun p => PyStr.nonempty (image_url p)) products in
  match limit with
  | Some n => if n =? 0 then products_with_images else slice_to products_with_images n
  | None => products_with_images
  end.

(** A future that is done: the product it was submitted for and what
    [future.result()] gives, a value or the exception of the task. *)
Definition future : Type := Product * exc (option MatchResult).

(** The order in which the tasks complete is not fixed by the program:
    [as_completed] is an argument, and yields every future once. *)
Definition yields_each_once (as_completed : list future -> list future) : Prop :=
  forall fs, Permutation (as_completed fs) fs.

(** The body of [for i, future in enumerate(as_completed(…))]. A result
    is kept when [result and result.score >= min_score]; a [MatchResult]
    is always truthy; an exception of the task or of the comparison is
    caught by [except Exception]. *)
Fixpoint collect (completed : list future) (min_score : Z)
    (results : list MatchResult) : list MatchResult :=
  match completed with
  | [] => results
  | (_, outcome) :: rest =>
      match (result ← outcome;
             match result with
             | Some r =>
                 keep ← Py.ge_int (score r) min_score;
                 Ret (if keep : bool then Some r else None)
             | None => Ret None
             end) with
      | Ret (Some r) => collect rest min_score (results ++ [r])
      | Ret None => collect rest min_score results
      | Raise _ => collect rest min_score results
      end
  end.

(** [results.sort(key=lambda r: r.score, reverse=True)], by the contract
    of [list.sort]: a stable sort that asks [<] of two keys and raises
    what [<] raises. [r] stood before every element of [sorted]. *)
Fixpoint insert_desc (r : MatchResult) (sorted : list MatchResult)
    : exc (list MatchResult) :=
  match sorted with
  | [] => Ret [r]
  | r' :: rest =>
      below ← Py.lt (score r) (score r');
      if below : bool
      then rest' ← insert_desc r rest; Ret (r' :: rest')
      else Ret (r :: r' :: rest)
  end.

Fixpoint sort_desc (results : list MatchResult) : exc (list MatchResult) :=
  match results with
  | [] => Ret []
  | r :: rest => sorted ← sort_desc rest; insert_desc r sorted
  end.

(** [ProductMatcher.match_products]; [ThreadPoolExecutor] refuses a
    [max_workers] that is not positive. *)
Definition match_products (w : World) (profile : StyleProfile)
    (as_completed : list future -> list future)
    (products : list Product) (min_score : Z) (max_workers : Z) (limit : option Z)
    : exc (list MatchResult) :=
  let products_with_images := dispatched products limit in
  if max_workers <=? 0
  then Raise (ValueError "max_workers must be greater than 0")
  else
    let futures := map (fun p => (p, match_product w profile p)) products_with_images in
    let results := collect (as_completed futures) min_score [] in
    sort_desc results.

(** [ProductMatcher.get_top_matches] *)
Definition get_top_matches (w : World) (profile : StyleProfile)
    (as_completed : list future -> list future)
    (products : list Product) (top_n : Z) (min_score : Z) : exc (list MatchResult) :=
  results ← match_products w profile as_completed products min_score 3 None;
  Ret (slice_to results top_n).

End Matcher.

(** * Vocabulary of the statements about the scrapers *)

Module Spec.
Import Model Dom Scrapers.

Section Dedup.
(** What the loop of a scraper is made of: [normalize] gives what an
    anchor normalizes to, if the loop does not pass over it; [key_of] is
    the normalized URL in it; [build] is [_parse_product_link]. *)
Context {N : Type}.
Variable normalize : loc -> option N.
Variable key_of : N -> string.
Variable build : loc -> N -> exc Product.

(** the loop of both scrapers *)
Fixpoint dedup (links : list loc) (seen : gset string) (products : list Product)
    : list Product :=
  match links with
  | [] => products
  | link :: rest =>
      match normalize link with
      | None => dedup rest seen products
      | Some n =>
          if decide (key_of n ∈ seen) then dedup rest seen products
          else match build link n with
               | Ret product => dedup rest (seen ∪ {[key_of n]}) (products ++ [product])
               | Raise _ => dedup rest (seen ∪ {[key_of n]}) products
               end
      end
  end.

(** [link] normalizes to the URL [u] *)
Definition normalizes_to (link : loc) (u : string) : Prop :=
  exists n, normalize link = Some n /\ key_of n = u.

(** [link] is the first of [links] that normalizes to the URL [u], and
    [n] is what it normalizes to *)
Definition first_seen (links : list loc) (u : string) (link : loc) (n : N) : Prop :=
  exists before after,
    links = before ++ link :: after /\
    normalize link = Some n /\ key_of n = u /\
    forall l, l ∈ before -> ~ normalizes_to l u.

(** [out] holds one product per URL at most, and the products with a
    given URL are exactly what the first anchor of that URL builds. *)
Definition first_wins (links : list loc) (out : list Product) : Prop :=
  NoDup (url <$> out) /\
  (forall p, p ∈ out ->
     exists link n, first_seen links (url p) link n /\ build link n = Ret p) /\
  (forall u link n p, first_seen links u link n -> build link n = Ret p -> p ∈ out).
End Dedup.

(** [SezaneScraper._parse_product_link] on what [Sezane.normalize] gives *)
Definition sezane_build (link : loc) (n : string * string) : exc Product :=
  Sezane._parse_product_link link (fst n) (snd n).

End Spec.

(** * Vocabulary of the statements about the matcher *)

Module MatchSpec.
Import Model Reply Analyzer Matcher.

(** [v] is an integer from 1 to 10 *)
Definition in_1_10 (v : pyval) : Prop :=
  exists z : Z, v = PyInt z /\ 1 <= z <= 10.

(** The reply of the model for [product] parses to the JSON object [d]:
    the image was fetched, the profile context built, the model
    answered, its first block is text, and the text, cleaned of
    fencing and stripped, is the document of [d]. *)
Definition reply_object (w : World) (profile : StyleProfile) (product : Product)
    (d : list (string * pyval)) : Prop :=
  PyStr.nonempty (image_url product) = true /\
  exists data media_type profile_context reply response_text,
    _fetch_image w (image_url product) = Some (data, media_type) /\
    _build_profile_context w profile = Ret profile_context /\
    messages_create w MODEL 500
      [ ImageBlock media_type data;
        TextBlock (match_prompt profile_context product) ] = Ret reply /\
    first_text reply = Ret response_text /\
    json_loads w (PyStr.strip (clean_markdown response_text)) = Some (PyDict d).

(** [score a >= score b], both numbers *)
Definition score_ge (a b : MatchResult) : Prop :=
  exists x y, Py.as_num (score a) = Some x /\ Py.as_num (score b) = Some y /\
              Py.fge x y = true.

(** [score r >= k] holds *)
Definition at_least (k : Z) (r : MatchResult) : Prop :=
  Py.ge_int (score r) k = Ret true.

(** the score is a number, and not NaN *)
Definition ranked (r : MatchResult) : Prop :=
  exists x, Py.as_num (score r) = Some x /\ x <> FNaN.

(** the result [match_product] builds from the object of the reply *)
Definition result_of (product : Product) (d : list (string * pyval)) : MatchResult :=
  mkMatchResult product
    (Py.dict_get d "score" (PyInt 0))
    (Py.dict_get d "reasoning" (PyStr EmptyString))
    (Py.dict_get d "style_notes" (PyStr EmptyString))
    (Py.dict_get d "suggested_pairings" (PyList [])).

End MatchSpec.

(** * Vocabulary of the statements about the analyzer *)

Module AnalyzerSpec.
Import Reply Analyzer.

(** the paths [analyze_style_images] loads: those of the first ten that
    exist *)
Definition present (w : World) (image_paths : list string) : list string :=
  List.filter (path_exists w) (take 10 image_paths).

(** [blk] is the image block of the file at [path] *)
Definition loaded (w : World) (path : string) (blk : block) : Prop :=
  exists bytes, read_bytes w path = Ret bytes /\
                blk = ImageBlock (media_type_of path) (b64encode w bytes).


End AnalyzerSpec.

(** * Concrete worlds and inputs *)

Module Examples.
Import Model Dom Reply Analyzer Matcher.

(** a successful response carrying a JPEG *)
Definition jpeg : response := mkResponse true EmptyString (Some "image/jpeg") "JFIF".

(** A world given by the image files on disk, the answer of the model,
    the documents [json.loads] reads and the page the scrapers get. Every
    URL answers with [jpeg]; the browser starts and stops. *)
Definition world (files : list (string * string)) (model : exc (list reply_block))
    (documents : list (string * pyval)) (page : node) : World :=
  {| http_get := fun _ => Ret jpeg;
     soup := fun _ => page;
     path_exists := fun path =>
       match assoc files path with Some _ => true | None => false end;
     read_bytes := fun path =>
       match assoc files path with Some b => Ret b | None => Raise OSError end;
     b64encode := fun b => "base64:" +:+ b;
     messages_create := fun _ _ _ => model;
     json_loads := fun s =>
       first_some (fun kv : string * pyval =>
                     if String.eqb (fst kv) s then Some (snd kv) else None) documents;
     py_str := fun _ => EmptyString;
     browser_start := Ret tt;
     browser_page := fun _ => Raise BrowserError;
     browser_stop := Ret tt |}.

Definition empty_page : node := Elem "[document]" [] [].

(** a listing page around the given cards *)
Definition listing (cards : list node) : node :=
  Elem "[document]" [] [Elem "html" [] [Elem "body" [] cards]].

Definition anchor (href : string) : node :=
  Elem "div" [("class", "product-card")]
       [Elem "a" [("href", href)] [Elem "img" [("src", "/img/1.jpg")] []]].

(** Sezane: a product link with a tracking query *)
Definition sezane_query_page : node :=
  listing [anchor "/product/will-jumper/ecru?utm_source=mail"].

(** Arket: a product link with a fragment *)
Definition arket_fragment_page : node :=
  listing [anchor "/p/wool-coat-123#black"].

(** Sezane: three anchors to one product, differing by fragment *)
Definition sezane_variants_page : node :=
  listing [ anchor "/product/will-jumper/ecru#size-s";
            anchor "/product/will-jumper/ecru#size-m";
            anchor "/product/will-jumper/ecru#size-l" ].

(** the worlds in which the scrapers get these pages *)
Definition page_world (page : node) : World := world [] (Raise APIError) [] page.

Definition will_jumper_tracked : Product :=
  new_product "Will Jumper" "N/A"
              "https://www.sezane.com/product/will-jumper/ecru?utm_source=mail"
              "https://www.sezane.com/img/1.jpg" "Sezane" ["Ecru"].

Definition wool_coat_black : Product :=
  new_product "Wool Coat 123#Black" "N/A" "https://www.arket.com/p/wool-coat-123#black"
              "https://www.arket.com/img/1.jpg" "Arket" [].

Definition will_jumper : Product :=
  new_product "Will Jumper" "N/A" "https://www.sezane.com/product/will-jumper/ecru"
              "https://www.sezane.com/img/1.jpg" "Sezane" ["Ecru"].

Definition coat : Product :=
  new_product "Wool Coat" "$120" "https://www.arket.com/p/wool-coat-123"
              "https://img.example/coat.jpg" "Arket" [].

Definition minimalist : StyleProfile :=
  mkStyleProfile (PyList [PyStr "navy blue"; PyStr "warm beige"])
                 (PyList [PyStr "French minimalist"])
                 (PyList []) (PyList []) (PyList [PyStr "linen"])
                 (PyList []) (PyList [PyStr "neon"])
                 (PyStr "Understated and tailored.").

(** The reply [{"score": n}] of the model, [n] being the JSON text of
    the value [v], and the world it is given in. *)
Definition score_reply (n : string) : string :=
  "{" +:+ dq +:+ "score" +:+ dq +:+ ": " +:+ n +:+ "}".

Definition scoring (n : string) (v : pyval) : World :=
  world [] (Ret [ReplyText (score_reply n)])
        [(score_reply n, PyDict [("score", v)])] empty_page.

(** the result built from that reply *)
Definition scored (product : Product) (v : pyval) : MatchResult :=
  mkMatchResult product v (PyStr EmptyString) (PyStr EmptyString) (PyList []).

(** the JSON text of the string "high" *)
Definition high : string := dq +:+ "high" +:+ dq.

(** tasks complete in the order of submission *)
Definition in_order (fs : list future) : list future := fs.


Definition only_eleventh : World :=
  world [("looks/11.jpg", "JFIF")] (Ret [ReplyText "{}"])
        [("{}", PyDict [])] empty_page.



(** a path that exists and cannot be opened as a file *)
Definition a_directory : World :=
  {| http_get := fun _ => Ret jpeg;
     soup := fun _ => empty_page;
     path_exists := fun _ => true;
     read_bytes := fun _ => Raise OSError;
     b64encode := fun b => "base64:" +:+ b;
     messages_create := fun _ _ _ => Ret [ReplyText "{}"];
     json_loads := fun _ => Some (PyDict []);
     py_str := fun _ => EmptyString;
     browser_start := Ret tt;
     browser_page := fun _ => Raise BrowserError;
     browser_stop := Ret tt |}.


End Examples.

(** * Vocabulary of the further statements *)

Module TextSpec.

(** what stands before the first occurrence of [sep] in [s] (all of [s]
    when there is none) *)
Fixpoint before (sep s : string) : string :=
  match s with
  | EmptyString => EmptyString
  | String c s' => if String.prefix sep s then EmptyString else String c (before sep s')
  end.

(** what follows the first occurrence of [sep] in [s] *)
Fixpoint after (sep s : string) : option string :=
  match s with
  | EmptyString => None
  | String c s' =>
      if String.prefix sep s then Some (PyStr.drop (String.length sep) s)
      else after sep s'
  end.

(** no character of [s] is [c] *)
Definition free_of (c : ascii) (s : string) : Prop :=
  PyStr.contains (String c EmptyString) s = false.

(** [u] is empty or starts with "http" *)
Definition empty_or_absolute (u : string) : Prop :=
  u = EmptyString \/ PyStr.startswith u "http" = true.

(** the URL a reference is completed to, before the suffix is cut:
    [href if href.startswith("http") else f"{BASE_URL}{href}"] *)
Definition completed (BASE_URL href : string) : string :=
  if PyStr.startswith href "http" then href else BASE_URL +:+ href.

End TextSpec.

Module MatchMore.
Import Model Reply Analyzer Matcher.

(** what the loop of [match_products] keeps of one future: its result,
    when there is one and its score passes the threshold *)
Definition kept (min_score : Z) (f : future) : list MatchResult :=
  match snd f with
  | Ret (Some r) =>
      match Py.ge_int (score r) min_score with
      | Ret true => [r]
      | _ => []
      end
  | _ => []
  end.

(** [v] is a list of [str], as the fields of a profile are annotated *)
Definition list_of_str (v : pyval) : Prop :=
  exists l : list string, v = PyList (map PyStr l).

(** the fields of the profile have the types they are annotated with *)
Definition well_typed (p : StyleProfile) : Prop :=
  list_of_str (color_palette p) /\ list_of_str (preferred_styles p) /\
  list_of_str (silhouettes p) /\ list_of_str (patterns p) /\
  list_of_str (materials p) /\ list_of_str (aesthetics p) /\
  list_of_str (avoid p) /\ exists s, summary p = PyStr s.

End MatchMore.

Module AnalyzeMore.
Import Reply.

(** the media types of the table of [_load_image] *)
Definition image_types : list string :=
  [ "image/jpeg"; "image/png"; "image/gif"; "image/webp" ].

(** an image block whose media type is one of the table *)
Definition image_block (blk : block) : Prop :=
  exists media_type data,
    blk = ImageBlock media_type data /\ In media_type image_types.

(** ** analyze_style.py: the images [main] hands to the analyzer *)

Definition image_extensions : list string :=
  [ ".jpg"; ".jpeg"; ".png"; ".webp"; ".gif" ].

(** [[p for p in style_dir.iterdir() if p.suffix.lower() in image_extensions]];
    [iterdir] is what the directory lists *)
Definition image_paths (iterdir : list string) : list string :=
  List.filter
    (fun p => existsb (String.eqb (PyStr.lower (Analyzer.path_suffix p))) image_extensions)
    iterdir.

End AnalyzeMore.

(** * Products on disk: shop.py, find_matches.py *)

Module Store.
Import Model Analyzer.

(** ** Exceptions, with [KeyError] *)

Inductive error : Type :=
| KeyError (key : string)
| Raised (e : exn).

Inductive outcome (A : Type) : Type :=
| Done (a : A)
| Failed (e : error).
Arguments Done {A} a.
Arguments Failed {A} e.

#[global] Instance outcome_ret : MRet outcome := fun A a => Done a.
#[global] Instance outcome_bind : MBind outcome := fun A B k m =>
  match m with
  | Done a => k a
  | Failed e => Failed e
  end.

Definition lift {A : Type} (m : exc A) : outcome A :=
  match m with
  | Ret a => Done a
  | Raise e => Failed (Raised e)
  end.

(** ** src/models/product.py: [Product.to_dict] *)

Definition opt_str (o : option string) : pyval :=
  match o with
  | Some s => PyStr s
  | None => PyNone
  end.

Definition strs (l : list string) : pyval := PyList (map PyStr l).

Definition to_dict (self : Product) : pyval :=
  PyDict [ ("name", PyStr (name self));
           ("price", PyStr (price self));
           ("url", PyStr (url self));
           ("image_url", PyStr (image_url self));
           ("retailer", PyStr (retailer self));
           ("category", opt_str (category self));
           ("colors", strs (colors self));
           ("sizes", strs (sizes self));
           ("description", opt_str (description self)) ].

(** ** An instance of [Product] built from a document

    The dataclass checks no type: the fields hold whatever the
    constructor is given. *)

Module Dyn.

Record Product : Type := mkProduct {
  name : pyval;
  price : pyval;
  url : pyval;
  image_url : pyval;
  retailer : pyval;
  category : pyval;
  colors : pyval;
  sizes : pyval;
  description : pyval
}.

End Dyn.

(** a product of the scrapers, seen as such an instance *)
Definition of_product (p : Product) : Dyn.Product :=
  Dyn.mkProduct (PyStr (name p)) (PyStr (price p)) (PyStr (url p))
                (PyStr (image_url p)) (PyStr (retailer p)) (opt_str (category p))
                (strs (colors p)) (strs (sizes p)) (opt_str (description p)).

(** ** The operations on the values read *)

Fixpoint find_key (d : list (string * pyval)) (key : string) : option pyval :=
  match d with
  | [] => None
  | (k, v) :: d' => if String.eqb k key then Some v else find_key d' key
  end.

(** [v[key]] for a [str] key: a [dict] without the key raises
    [KeyError]; a sequence wants an integer and the other values are not
    subscriptable, both [TypeError] *)
Definition getitem (v : pyval) (key : string) : outcome pyval :=
  match v with
  | PyDict d =>
      match find_key d key with
      | Some x => Done x
      | None => Failed (KeyError key)
      end
  | _ => Failed (Raised TypeError)
  end.

(** [for p in v]: the items of a list, the characters of a [str], the
    keys of a [dict]; the other values are not iterable *)
Definition iter (v : pyval) : outcome (list pyval) :=
  match v with
  | PyList l => Done l
  | PyStr s => Done (map PyStr (Matcher.chars s))
  | PyDict d => Done (map (fun kv : string * pyval => PyStr (fst kv)) d)
  | _ => Failed (Raised TypeError)
  end.

(** a loop, or a comprehension, that builds one item per element and
    stops at the first exception *)
Fixpoint each {A B : Type} (f : A -> outcome B) (l : list A) : outcome (list B) :=
  match l with
  | [] => Done []
  | a :: l' => b ← f a; bs ← each f l'; Done (b :: bs)
  end.

(** [json.load] of the file at [path]; the files are the documents they
    hold, as for the profiles *)
Definition json_load (fs : Files) (path : string) : outcome pyval :=
  match documents fs !! path with
  | Some document => Done document
  | None => Failed (Raised OSError)
  end.

(** ** shop.py *)

(** [save_products]; [now] is [datetime.now().isoformat()] *)
Definition save_products (fs : Files) (now : string) (products : list Product)
    (path : string) : exc Files :=
  let output :=
    PyDict [ ("scraped_at", PyStr now);
             ("total_products", PyInt (Z.of_nat (length products)));
             ("products", PyList (map to_dict products)) ] in
  if can_write fs path
  then Ret (mkFiles (<[path := output]> (documents fs)) (can_write fs))
  else Raise OSError.

(** [scrape_all]; closing the HTTP client of the first scraper has no
    outcome of its own *)
Definition scrape_all (w : World) : exc (list Product) :=
  let all_products : list Product := [] in
  sezane_products ← Scrapers.Sezane.scrape_new_arrivals w;
  let all_products := all_products ++ sezane_products in
  arket_products ← Scrapers.Arket.scrape_new_arrivals w;
  let all_products := all_products ++ arket_products in
  Ret all_products.

(** The cached products of [main] under [--match-only]: [None] when
    the file does not exist and [main] returns. The constructor is
    given six of the fields, the other three take the defaults of the
    dataclass. *)
Definition cached_products (fs : Files) (products_path : string)
    : outcome (option (list Dyn.Product)) :=
  match documents fs !! products_path with
  | None => Done None
  | Some data =>
      products ← getitem data "products";
      items ← iter products;
      products ←
        each (fun p =>
                name ← getitem p "name";
                price ← getitem p "price";
                url ← getitem p "url";
                image_url ← getitem p "image_url";
                retailer ← getitem p "retailer";
                colors ← lift (Py.get p "colors" (PyList []));
                Done (Dyn.mkProduct name price url image_url retailer
                                    PyNone colors (PyList []) PyNone))
             items;
      Done (Some products)
  end.

(** ** find_matches.py: [load_products] *)

Definition load_products (fs : Files) (path : string) : outcome (list Dyn.Product) :=
  data ← json_load fs path;
  products ← lift (Py.get data "products" (PyList []));
  items ← iter products;
  each (fun p =>
          name ← getitem p "name";
          price ← getitem p "price";
          url ← getitem p "url";
          image_url ← getitem p "image_url";
          retailer ← getitem p "retailer";
          category ← lift (Py.get p "category" PyNone);
          colors ← lift (Py.get p "colors" (PyList []));
          sizes ← lift (Py.get p "sizes" (PyList []));
          description ← lift (Py.get p "description" PyNone);
          Done (Dyn.mkProduct name price url image_url retailer
                              category colors sizes description))
       items.

End Store.

(** * backend/models.py, and the products of backend/app.py *)

Module Backend.
Import Model Analyzer Store.

(** A row of the table [products]. [colors] and [sizes] are JSON
    columns, [None] when NULL; [scraped_at] is the text [isoformat]
    gives of the time, when there is one. *)
Record Row : Type := mkRow {
  id : Z;
  name : string;
  price : string;
  url : string;
  image_url : string;
  retailer : string;
  category : option string;
  colors : pyval;
  sizes : pyval;
  description : option string;
  scraped_at : option string
}.

(** [a or []] *)
Definition or_empty (a : pyval) : pyval :=
  if Py.truthy a then a else PyList [].

(** [Product.to_dict] of backend/models.py *)
Definition to_dict (self : Row) : pyval :=
  PyDict [ ("id", PyInt (id self));
           ("name", PyStr (name self));
           ("price", PyStr (price self));
           ("url", PyStr (url self));
           ("image_url", PyStr (image_url self));
           ("retailer", PyStr (retailer self));
           ("category", opt_str (category self));
           ("colors", or_empty (colors self));
           ("sizes", or_empty (sizes self));
           ("description", opt_str (description self));
           ("scraped_at", opt_str (scraped_at self)) ].

(** [get_all_products]; [query] is what creating the engine and asking
    the session for the rows, newest first, gives *)
Definition get_all_products (query : exc (list Row)) : exc (list pyval) :=
  products ← query;
  Ret (map to_dict products).

(** [s.replace(old, new, 1)] *)
Fixpoint replace_first (old new s : string) : string :=
  match s with
  | EmptyString => if PyStr.nonempty old then EmptyString else new
  | String c s' =>
      if String.prefix old s
      then new +:+ PyStr.drop (String.length old) s
      else String c (replace_first old new s')
  end.

(** [get_engine], up to the call of [create_engine]: the URL the engine
    is created with, or the message of the [RuntimeError].
    [DATABASE_URL] is the variable of the environment, if set. *)
Definition get_engine (DATABASE_URL : option string) : string + string :=
  let database_url :=
    match DATABASE_URL with Some v => v | None => EmptyString end in
  if negb (PyStr.nonempty database_url)
  then inl "DATABASE_URL environment variable is not set"
  else
    let database_url :=
      if PyStr.startswith database_url "postgres://"
      then replace_first "postgres://" "postgresql://" database_url
      else database_url in
    inr database_url.

(** ** The constructor of src/models/product.py given a mapping *)

Definition field_names : list string :=
  [ "name"; "price"; "url"; "image_url"; "retailer";
    "category"; "colors"; "sizes"; "description" ].

(** the fields without a default *)
Definition required : list string :=
  [ "name"; "price"; "url"; "image_url"; "retailer" ].

Definition has_key (d : list (string * pyval)) (key : string) : bool :=
  match find_key d key with Some _ => true | None => false end.

(** The constructor called with the items of [p] as keyword arguments:
    [p] has to be a mapping, every key the name of a field, and every
    field without a default given. *)
Definition from_kwargs (p : pyval) : outcome Dyn.Product :=
  match p with
  | PyDict d =>
      if forallb (fun kv : string * pyval => existsb (String.eqb (fst kv)) field_names) d
         && forallb (has_key d) required
      then Done (Dyn.mkProduct
                   (Py.dict_get d "name" PyNone)
                   (Py.dict_get d "price" PyNone)
                   (Py.dict_get d "url" PyNone)
                   (Py.dict_get d "image_url" PyNone)
                   (Py.dict_get d "retailer" PyNone)
                   (Py.dict_get d "category" PyNone)
                   (Py.dict_get d "colors" (PyList []))
                   (Py.dict_get d "sizes" (PyList []))
                   (Py.dict_get d "description" PyNone))
      else Failed (Raised TypeError)
  | _ => Failed (Raised TypeError)
  end.

(** ** backend/app.py: the products [find_matches] matches

    The part of the route between the profile and the parameters of
    the request. [database] is [None] when [DATABASE_URL] is not set or
    empty, else the query as above. The result is [None] when the route
    answers 400 "No products found". *)
Definition products_to_match (database : option (exc (list Row)))
    (fs : Files) (products_file : string) : outcome (option (list Dyn.Product)) :=
  let products_data : option (list pyval) :=
    match database with
    | Some query =>
        match get_all_products query with
        | Ret products => Some products
        | Raise _ => None
        end
    | None => None
    end in
  match products_data with
  | Some products_data =>
      products ← each from_kwargs products_data;
      Done (Some products)
  | None =>
      match documents fs !! products_file with
      | None => Done None
      | Some raw =>
          products ← getitem raw "products";
          items ← iter products;
          products ← each from_kwargs items;
          Done (Some products)
      end
  end.

End Backend.

(** * generate_feed.py: the score dots *)

Module Feed.
Import Reply.

Definition dot (filled : bool) : string :=
  "<span class=" +:+ dq +:+ "dot" +:+ (if filled then " filled" else EmptyString)
  +:+ dq +:+ "></span>".

(** the loop [for i in range(10)] over the numbers still to come *)
Fixpoint dots_from (score : pyval) (range : list Z) (dots : list string)
    : exc (list string) :=
  match range with
  | [] => Ret dots
  | i :: rest =>
      filled ← Py.lt (PyInt i) score;
      dots_from score rest (dots ++ [dot filled])
  end.

Definition separator : string :=
  Matcher.nl +:+ "                            ".

(** [generate_dots] *)
Definition generate_dots (score : pyval) : exc string :=
  dots ← dots_from score [0; 1; 2; 3; 4; 5; 6; 7; 8; 9] [];
  Ret (PyStr.join separator dots).

End Feed.

(** * More worlds *)

Module Sites.
Import Dom Examples.

(** the retailer's site answers every request with a page that parses
    to [page]; no browser page can be opened *)
Definition site (page : node) : World :=
  {| http_get := fun _ => Ret (mkResponse true "<html>" (Some "text/html") "<html>");
     soup := fun _ => page;
     path_exists := fun _ => false;
     read_bytes := fun _ => Raise OSError;
     b64encode := fun b => "base64:" +:+ b;
     messages_create := fun _ _ _ => Raise APIError;
     json_loads := fun _ => None;
     py_str := fun _ => EmptyString;
     browser_start := Ret tt;
     browser_page := fun _ => Raise BrowserError;
     browser_stop := Ret tt |}.

End Sites.

(** * Facts about the text primitives *)

Module PyStrFacts.
Import PyStr.

Lemma append_cons (c : ascii) (s t : string) :
  String c s +:+ t = String c (s +:+ t).
Proof. reflexivity. Qed.

Lemma append_empty_l (t : string) : EmptyString +:+ t = t.
Proof. reflexivity. Qed.

Lemma append_empty_r (s : string) : s +:+ EmptyString = s.
Proof.
  induction s as [|c s IH]; [reflexivity|]. now rewrite append_cons, IH.
Qed.

Lemma append_snoc (s : string) (c : ascii) (t : string) :
  (s +:+ String c EmptyString) +:+ t = s +:+ String c t.
Proof.
  induction s as [|a s IH]; [reflexivity|]. now rewrite !append_cons, IH.
Qed.

Lemma prefix_empty (s : string) : String.prefix EmptyString s = true.
Proof. now destruct s. Qed.

(** Up to the first [c], [split] on [c] reads like [span]. *)
Lemma split_go_hd (c : ascii) (s cur : string) :
  hd EmptyString (split_go (String c EmptyString) s O cur)
  = cur +:+ fst (span (fun x => negb (Ascii.eqb x c)) s).
Proof.
  revert cur. induction s as [|a s IH]; intros cur.
  - simpl. now rewrite append_empty_r.
  - cbn [split_go String.prefix span].
    destruct (ascii_dec c a) as [->|Hne].
    + rewrite prefix_empty, Ascii.eqb_refl. simpl. now rewrite append_empty_r.
    + assert (Ascii.eqb a c = false) as ->
        by (apply Ascii.eqb_neq; congruence).
      simpl negb. cbv iota. rewrite IH.
      destruct (span _ s) as [x y]. simpl. apply append_snoc.
Qed.

Lemma span_stops (c : ascii) (s : string) :
  contains (String c EmptyString) (fst (span (fun x => negb (Ascii.eqb x c)) s)) = false.
Proof.
  induction s as [|a s IH]; [reflexivity|].
  cbn [span]. destruct (Ascii.eqb a c) eqn:E; [reflexivity|].
  simpl negb. cbv iota. destruct (span _ s) as [x y]. simpl in *.
  destruct (ascii_dec c a) as [->|_]; [now rewrite Ascii.eqb_refl in E|].
  exact IH.
Qed.

(** the first piece of a split on one character is free of it *)
Lemma split0_free (c : ascii) (s : string) :
  contains (String c EmptyString) (split0 s (String c EmptyString)) = false.
Proof.
  unfold split0, split. rewrite split_go_hd. simpl. apply span_stops.
Qed.

Lemma split_go_nonempty (sep s : string) : forall skip cur,
  (1 <= length (split_go sep s skip cur))%nat.
Proof.
  induction s as [|a s IH]; intros skip cur; [simpl; lia|].
  cbn [split_go]. destruct skip; [|apply IH].
  destruct (String.prefix sep (String a s)); [simpl; lia | apply IH].
Qed.

(** After [sep in s] the split has a second piece: [split(sep)[1]] does
    not raise. *)
Lemma split_has_second (sep s : string) :
  nonempty sep = true -> contains sep s = true -> (2 <= length (split s sep))%nat.
Proof.
  intros Hsep. unfold split. generalize EmptyString as cur.
  induction s as [|a s IH]; intros cur Hin.
  - destruct sep; discriminate.
  - cbn [split_go]. cbn [contains] in Hin.
    destruct (String.prefix sep (String a s)).
    + pose proof (split_go_nonempty sep s (String.length sep - 1) EmptyString).
      simpl. lia.
    + apply IH. exact Hin.
Qed.

End PyStrFacts.

(** * Facts about the scrapers *)

Module ScraperFacts.
Import Model Dom Scrapers Spec Examples.

Section Dedup.
Context {N : Type}.
Variable normalize : loc -> option N.
Variable key_of : N -> string.
Variable build : loc -> N -> exc Product.
Hypothesis build_url : forall link n p, build link n = Ret p -> url p = key_of n.

Lemma dedup_acc (links : list loc) : forall seen products,
  dedup normalize key_of build links seen products
  = products ++ dedup normalize key_of build links seen [].
Proof.
  induction links as [|l rest IH]; intros seen products; simpl.
  - now rewrite app_nil_r.
  - destruct (normalize l) as [n|]; [|apply IH].
    destruct (decide (key_of n ∈ seen)); [apply IH|].
    destruct (build l n) as [q|e]; [|apply IH].
    rewrite IH, (IH _ ([] ++ [q])). now rewrite <- app_assoc.
Qed.

Lemma first_seen_cons (l : loc) (rest : list loc) (u : string) (link : loc) (n : N) :
  first_seen normalize key_of (l :: rest) u link n <->
  (link = l /\ normalize l = Some n /\ key_of n = u)
  \/ (~ normalizes_to normalize key_of l u /\ first_seen normalize key_of rest u link n).
Proof.
  split.
  - intros (before & after & Heq & Hn & Hk & Hfirst).
    destruct before as [|b before]; simpl in Heq; injection Heq as <- Hrest.
    + left. auto.
    + right. split; [apply Hfirst; left|].
      exists before, after. repeat split; try assumption.
      intros x Hx. apply Hfirst. now right.
  - intros [(-> & Hn & Hk) | (Hne & before & after & -> & Hn & Hk & Hfirst)].
    + exists [], rest. repeat split; try assumption.
      intros x Hx. inversion Hx.
    + exists (l :: before), after. repeat split; try assumption.
      intros x Hx. apply elem_of_cons in Hx as [->|Hx]; [assumption | now apply Hfirst].
Qed.

Lemma first_seen_nil (u : string) (link : loc) (n : N) :
  ~ first_seen normalize key_of [] u link n.
Proof. intros ([|? ?] & after & Heq & _); discriminate Heq. Qed.

Lemma first_seen_skip (l : loc) (rest : list loc) (u : string) (link : loc) (n : N) :
  ~ normalizes_to normalize key_of l u ->
  first_seen normalize key_of (l :: rest) u link n
  <-> first_seen normalize key_of rest u link n.
Proof.
  intros Hne. rewrite first_seen_cons. split.
  - intros [(-> & Hn & Hk)|[_ Hf]]; [|assumption].
    exfalso. apply Hne. now exists n.
  - intros Hf. right. now split.
Qed.

(** what the loop adds: the products of the first anchors of the URLs
    not seen before *)
Lemma dedup_elem (links : list loc) : forall seen p,
  p ∈ dedup normalize key_of build links seen [] <->
  exists link n, first_seen normalize key_of links (url p) link n
                 /\ (url p ∉ seen) /\ build link n = Ret p.
Proof.
  induction links as [|l rest IH]; intros seen p; simpl.
  - split; [intros H; inversion H|].
    intros (link & n & H & _). now apply first_seen_nil in H.
  - assert (forall u, ~ normalizes_to normalize key_of l u ->
              ((exists link n, first_seen normalize key_of rest u link n
                               /\ (u ∉ seen) /\ build link n = Ret p)
               <-> (exists link n, first_seen normalize key_of (l :: rest) u link n
                                   /\ (u ∉ seen) /\ build link n = Ret p))) as Hskip.
    { intros u Hne. split; intros (link & n & Hf & Hs & Hb); exists link, n;
        (split; [|now split]); now apply (first_seen_skip l rest u link n Hne). }
    destruct (normalize l) as [m|] eqn:Hm.
    + destruct (decide (key_of m ∈ seen)) as [Hin|Hnin].
      * rewrite IH. split.
        -- intros (link & n & Hf & Hs & Hb). apply Hskip; [|now exists link, n].
           intros (m' & Hm' & Hk). congruence.
        -- intros (link & n & Hf & Hs & Hb).
           apply (Hskip (url p)); [|now exists link, n].
           intros (m' & Hm' & Hk). congruence.
      * assert (forall q, (url q ∉ seen ∪ {[key_of m]})
                          <-> (url q ∉ seen) /\ url q <> key_of m) as Hsplit.
        { intros q. rewrite not_elem_of_union, not_elem_of_singleton. tauto. }
        assert (url p <> key_of m -> ~ normalizes_to normalize key_of l (url p)) as Hother.
        { intros Hne (m' & Hm' & Hk). congruence. }
        destruct (build l m) as [q|e] eqn:Hb.
        -- rewrite dedup_acc. simpl. rewrite elem_of_cons, IH. split.
           ++ intros [->|(link & n & Hf & Hs & Hbl)].
              ** exists l, m. pose proof (build_url _ _ _ Hb) as Hu.
                 split; [apply first_seen_cons; left; auto|].
                 split; [congruence | assumption].
              ** apply Hsplit in Hs as [Hs Hne]. exists link, n.
                 split; [apply first_seen_skip; auto|]. now split.
           ++ intros (link & n & Hf & Hs & Hbl).
              apply first_seen_cons in Hf as [(-> & Hn & Hk)|[Hne Hf]].
              ** left. congruence.
              ** right. exists link, n. split; [assumption|].
                 split; [|assumption]. apply Hsplit. split; [assumption|].
                 intros Hu. apply Hne. now exists m.
        -- rewrite IH. split.
           ++ intros (link & n & Hf & Hs & Hbl).
              apply Hsplit in Hs as [Hs Hne]. exists link, n.
              split; [apply first_seen_skip; auto|]. now split.
           ++ intros (link & n & Hf & Hs & Hbl).
              apply first_seen_cons in Hf as [(-> & Hn & Hk)|[Hne Hf]]; [congruence|].
              exists link, n. split; [assumption|].
              split; [|assumption]. apply Hsplit. split; [assumption|].
              intros Hu. apply Hne. now exists m.
    + rewrite IH. apply Hskip. intros (m' & Hm' & _). congruence.
Qed.

Lemma dedup_NoDup (links : list loc) : forall seen,
  NoDup (url <$> dedup normalize key_of build links seen []).
Proof.
  induction links as [|l rest IH]; intros seen; simpl; [constructor|].
  destruct (normalize l) as [m|] eqn:Hm; [|apply IH].
  destruct (decide (key_of m ∈ seen)); [apply IH|].
  destruct (build l m) as [q|e] eqn:Hb; [|apply IH].
  rewrite dedup_acc. simpl. apply NoDup_cons. split; [|apply IH].
  intros Hin. apply list_elem_of_fmap in Hin as (p & Hu & Hp).
  apply dedup_elem in Hp as (_ & _ & _ & Hs & _).
  apply Hs. rewrite <- Hu, (build_url _ _ _ Hb). set_solver.
Qed.

Lemma dedup_first_wins (links : list loc) :
  first_wins normalize key_of build links (dedup normalize key_of build links ∅ []).
Proof.
  split; [apply dedup_NoDup|]. split.
  - intros p Hp. apply dedup_elem in Hp as (link & n & Hf & _ & Hb). now exists link, n.
  - intros u link n p Hf Hb. apply dedup_elem. exists link, n.
    assert (url p = u) as ->.
    { destruct Hf as (_ & _ & _ & _ & Hk & _). now rewrite (build_url _ _ _ Hb). }
    split; [assumption|]. split; [set_solver | assumption].
Qed.
End Dedup.

(** Both loops are [dedup]. *)
Lemma sezane_loop_dedup (links : list loc) : forall seen products,
  Sezane.loop links seen products
  = dedup Sezane.normalize fst sezane_build links seen products.
Proof.
  induction links as [|l rest IH]; intros seen products; simpl; [reflexivity|].
  unfold sezane_build.
  destruct (Sezane.normalize l) as [[b f]|]; [|apply IH]. simpl.
  destruct (decide (b ∈ seen)); [apply IH|].
  destruct (Sezane._parse_product_link l b f); apply IH.
Qed.

Lemma arket_loop_dedup (links : list loc) : forall seen products,
  Arket.loop links seen products
  = dedup Arket.normalize id Arket._parse_product_link links seen products.
Proof.
  induction links as [|l rest IH]; intros seen products; simpl; [reflexivity|].
  destruct (Arket.normalize l) as [b|]; [|apply IH]. simpl.
  destruct (decide (b ∈ seen)); [apply IH|].
  destruct (Arket._parse_product_link l b); apply IH.
Qed.

(** The URL stored is the normalized URL handed to the parser. *)
Lemma sezane_build_url (link : loc) (n : string * string) (p : Product) :
  sezane_build link n = Ret p -> url p = fst n.
Proof.
  unfold sezane_build, Sezane._parse_product_link.
  destruct (image_url_of _ _); simpl; [|discriminate].
  now intros [= <-].
Qed.

Lemma arket_build_url (link : loc) (u : string) (p : Product) :
  Arket._parse_product_link link u = Ret p -> url p = id u.
Proof.
  unfold Arket._parse_product_link.
  destruct (image_url_of _ _); simpl; [|discriminate].
  now intros [= <-].
Qed.

Lemma sezane_no_fragment (link : loc) (n : string * string) :
  Sezane.normalize link = Some n -> PyStr.contains "#" (fst n) = false.
Proof.
  unfold Sezane.normalize.
  destruct (_ || _); [discriminate|]. intros [= <-].
  apply PyStrFacts.split0_free.
Qed.

Lemma arket_no_query (link : loc) (u : string) :
  Arket.normalize link = Some u -> PyStr.contains "?" u = false.
Proof.
  unfold Arket.normalize.
  destruct (_ || _); [discriminate|]. intros [= <-].
  apply PyStrFacts.split0_free.
Qed.

Lemma sezane_first_wins (soup : node) :
  first_wins Sezane.normalize fst sezane_build
             (select soup Sezane.link_sel) (Sezane.parse_tree soup).
Proof.
  unfold Sezane.parse_tree. rewrite sezane_loop_dedup.
  apply dedup_first_wins, sezane_build_url.
Qed.

Lemma arket_first_wins (soup : node) :
  first_wins Arket.normalize id Arket._parse_product_link
             (Arket.product_links soup) (Arket.parse_tree soup).
Proof.
  unfold Arket.parse_tree. rewrite arket_loop_dedup.
  apply dedup_first_wins, arket_build_url.
Qed.


(** C2, amended. The URL of a product of the Sezane scraper has no
    fragment ([#]); the URL of a product of the Arket scraper has no query
    string ([?]). *)
Theorem C2_each_scraper_strips_its_suffix (w : World) (html : string) (p : Product) :
  (p ∈ Sezane.parse_products w html -> PyStr.contains "#" (url p) = false)
  /\ (p ∈ Arket.parse_products w html -> PyStr.contains "?" (url p) = false).
Proof.
  split; intros Hp.
  - destruct (sezane_first_wins (soup w html)) as (_ & Hs & _).
    destruct (Hs p Hp) as (link & n & (_ & _ & _ & Hn & Hk & _) & _).
    rewrite <- Hk. exact (sezane_no_fragment _ _ Hn).
  - destruct (arket_first_wins (soup w html)) as (_ & Ha & _).
    destruct (Ha p Hp) as (link & n & (_ & _ & _ & Hn & Hk & _) & _).
    rewrite <- Hk. exact (arket_no_query _ _ Hn).
Qed.

Lemma C2_witness :
  will_jumper ∈ Sezane.parse_products (page_world sezane_variants_page) "<html>"
  /\ PyStr.contains "#" (url will_jumper) = false.
Proof.
  assert (will_jumper ∈ Sezane.parse_products (page_world sezane_variants_page) "<html>")
    as Hin by (vm_compute; apply list_elem_of_here).
  split; [assumption|].
  exact (proj1 (C2_each_scraper_strips_its_suffix
                  (page_world sezane_variants_page) "<html>" will_jumper) Hin).
Defined.

(** C2 as stated fails: the Sezane scraper keeps a query string, and the
    Arket scraper keeps a fragment. *)
Lemma C2_counterexample :
  (will_jumper_tracked ∈ Sezane.parse_products (page_world sezane_query_page) "<html>"
   /\ PyStr.contains "?" (url will_jumper_tracked) = true)
  /\ (wool_coat_black ∈ Arket.parse_products (page_world arket_fragment_page) "<html>"
      /\ PyStr.contains "#" (url wool_coat_black) = true).
Proof.
  split; (split; [vm_compute; apply list_elem_of_here | reflexivity]).
Qed.

(** The scenario of three anchors to one product that differ by their
    fragment: one product is returned. *)
Example three_variants_one_product :
  Sezane.parse_products (page_world sezane_variants_page) "<html>" = [will_jumper].
Proof. vm_compute. reflexivity. Qed.

End ScraperFacts.

(** * Facts about the matcher *)

Module MatcherFacts.
Import Model Reply Analyzer Matcher MatchSpec.

(** ** Order of the scores *)

Lemma flt_fge (x y : pyfloat) : Py.flt x y = true -> Py.fge y x = true.
Proof.
  destruct x as [|[|]|p], y as [|[|]|q]; simpl; try congruence.
  intros H. apply negb_true_iff in H. apply Qle_bool_iff.
  apply Qlt_le_weak, Qnot_le_lt. intros Hle.
  apply Qle_bool_iff in Hle. congruence.
Qed.

Lemma not_flt_fge (x y : pyfloat) :
  x <> FNaN -> y <> FNaN -> Py.flt x y = false -> Py.fge x y = true.
Proof.
  destruct x as [|[|]|p], y as [|[|]|q]; simpl; try congruence.
  intros _ _ H. now apply negb_false_iff in H.
Qed.

Lemma at_least_ranked (k : Z) (r : MatchResult) : at_least k r -> ranked r.
Proof.
  unfold at_least, ranked, Py.ge_int.
  destruct (Py.as_num (score r)) as [x|]; [|discriminate].
  intros [= H]. exists x. split; [reflexivity|].
  intros ->. discriminate H.
Qed.

Lemma at_least_weaken (k k' : Z) (r : MatchResult) :
  k' <= k -> at_least k r -> at_least k' r.
Proof.
  unfold at_least, Py.ge_int. intros Hk.
  destruct (Py.as_num (score r)) as [x|]; [|discriminate].
  intros [= H]. f_equal.
  destruct x as [|[|]|p]; simpl in *; try congruence.
  apply Qle_bool_iff. apply Qle_bool_iff in H.
  eapply Qle_trans; [|exact H]. now rewrite <- Zle_Qle.
Qed.

(** ** The loop over the completed futures *)

Lemma collect_acc (completed : list future) (k : Z) : forall results,
  collect completed k results = results ++ collect completed k [].
Proof.
  induction completed as [|[p o] rest IH]; intros results; simpl.
  - now rewrite app_nil_r.
  - destruct o as [[r|]|e]; simpl; try apply IH.
    destruct (Py.ge_int (score r) k) as [[|]|e]; simpl; try apply IH.
    rewrite IH, (IH [r]). now rewrite <- app_assoc.
Qed.

(** A result is collected when its task returned it and its score passes
    the threshold. *)
Lemma collect_In (completed : list future) (k : Z) (r : MatchResult) :
  In r (collect completed k []) <->
  (exists p, In (p, Ret (Some r)) completed) /\ at_least k r.
Proof.
  unfold at_least.
  induction completed as [|[p o] rest IH]; simpl.
  - split; [tauto | intros [[_ []] _]].
  - assert (In r (collect rest k []) ->
            (exists p0, (p, o) = (p0, Ret (Some r)) \/ In (p0, Ret (Some r)) rest)
            /\ Py.ge_int (score r) k = Ret true) as Hlater.
    { intros H. apply IH in H as [[p0 H] Hk]. split; [|assumption].
      exists p0. now right. }
    assert (forall r', o = Ret (Some r') -> Py.ge_int (score r') k <> Ret true ->
            (exists p0, (p, o) = (p0, Ret (Some r)) \/ In (p0, Ret (Some r)) rest)
            /\ Py.ge_int (score r) k = Ret true -> In r (collect rest k [])) as Hdrop.
    { intros r' -> Hno [[p0 [[= _ ->]|H]] Hk]; [contradiction|].
      apply IH. split; [now exists p0 | assumption]. }
    assert (forall x, o = x -> (forall r', x <> Ret (Some r')) ->
            (exists p0, (p, o) = (p0, Ret (Some r)) \/ In (p0, Ret (Some r)) rest)
            /\ Py.ge_int (score r) k = Ret true -> In r (collect rest k [])) as Hnone.
    { intros x -> Hx [[p0 [[= _ Ho]|H]] Hk]; [now apply Hx in Ho|].
      apply IH. split; [now exists p0 | assumption]. }
    destruct o as [[r'|]|e]; simpl.
    + destruct (Py.ge_int (score r') k) as [[|]|e] eqn:Hge; simpl.
      * rewrite collect_acc. simpl. split.
        -- intros [->|H]; [|now apply Hlater].
           split; [|assumption]. exists p. now left.
        -- intros [[p0 [[= _ ->]|H]] Hk]; [now left|].
           right. apply IH. split; [now exists p0 | assumption].
      * split; [apply Hlater | apply (Hdrop r' eq_refl); congruence].
      * split; [apply Hlater | apply (Hdrop r' eq_refl); congruence].
    + split; [apply Hlater | apply (Hnone _ eq_refl); congruence].
    + split; [apply Hlater | apply (Hnone _ eq_refl); congruence].
Qed.

(** ** The sort *)

Lemma insert_desc_spec (r : MatchResult) (sorted : list MatchResult) :
  ranked r -> Forall ranked sorted ->
  exists l, insert_desc r sorted = Ret l /\ Permutation l (r :: sorted) /\
            (Sorted score_ge sorted -> Sorted score_ge l) /\
            (forall a, score_ge a r -> HdRel score_ge a sorted -> HdRel score_ge a l).
Proof.
  intros (x & Hx & Hxn) Hall.
  induction Hall as [|r' rest (y & Hy & Hyn) Hrest IH]; simpl.
  - exists [r]. repeat split; auto.
  - unfold Py.lt. rewrite Hx, Hy. simpl.
    destruct (Py.flt x y) eqn:Hlt.
    + destruct IH as (l & -> & Hperm & Hsorted & Hhd). simpl.
      exists (r' :: l). split; [reflexivity|]. split; [|split].
      * rewrite Hperm. apply perm_swap.
      * intros Hs. inversion Hs as [|? ? Hs' Hhd']; subst.
        constructor; [now apply Hsorted|].
        apply Hhd; [|assumption].
        exists y, x. auto using flt_fge.
      * intros a _ Ha. inversion Ha; subst. now constructor.
    + exists (r :: r' :: rest). split; [reflexivity|]. split; [reflexivity|]. split.
      * intros Hs. constructor; [assumption|]. constructor.
        exists x, y. auto using not_flt_fge.
      * intros a Ha _. now constructor.
Qed.

(** On results whose scores are numbers the sort returns, and gives a
    permutation sorted by score, highest first. *)
Lemma sort_desc_spec (results : list MatchResult) :
  Forall ranked results ->
  exists l, sort_desc results = Ret l /\ Permutation l results /\ Sorted score_ge l.
Proof.
  induction 1 as [|r rest Hr Hrest (l & Hl & Hperm & Hsorted)]; simpl.
  - exists []. auto.
  - rewrite Hl. simpl.
    destruct (insert_desc_spec r l Hr) as (l' & Hl' & Hperm' & Hsorted' & _).
    { eapply Permutation_Forall; [symmetry; exact Hperm | assumption]. }
    exists l'. split; [assumption|]. split; [|now apply Hsorted'].
    rewrite Hperm'. now constructor.
Qed.

Lemma collect_at_least (completed : list future) (k : Z) :
  Forall (at_least k) (collect completed k []).
Proof. apply List.Forall_forall. intros r H. now apply collect_In in H. Qed.

(** [match_products] returns whenever the pool can be built: the list
    it returns is the collected results, sorted. *)
Lemma match_products_spec (w : World) (profile : StyleProfile)
    (as_completed : list future -> list future)
    (products : list Product) (k max_workers : Z) (limit : option Z) :
  0 < max_workers ->
  exists l,
    match_products w profile as_completed products k max_workers limit = Ret l /\
    Permutation l
      (collect (as_completed (map (fun p => (p, match_product w profile p))
                                  (dispatched products limit))) k []) /\
    Sorted score_ge l.
Proof.
  intros Hw. unfold match_products.
  destruct (Z.leb_spec max_workers 0) as [?|_]; [lia|].
  apply sort_desc_spec.
  eapply List.Forall_impl; [|apply collect_at_least]. apply at_least_ranked.
Qed.

Lemma match_products_refused (w : World) (profile : StyleProfile)
    (as_completed : list future -> list future)
    (products : list Product) (k max_workers : Z) (limit : option Z) :
  max_workers <= 0 ->
  match_products w profile as_completed products k max_workers limit
  = Raise (ValueError "max_workers must be greater than 0").
Proof.
  intros Hw. unfold match_products.
  now destruct (Z.leb_spec max_workers 0) as [_|?]; [|lia].
Qed.

(** what is in the list returned *)
Lemma match_products_In (w : World) (profile : StyleProfile)
    (as_completed : list future -> list future)
    (products : list Product) (k max_workers : Z) (limit : option Z)
    (l : list MatchResult) (r : MatchResult) :
  yields_each_once as_completed ->
  match_products w profile as_completed products k max_workers limit = Ret l ->
  In r l <->
  (exists p, In p (dispatched products limit) /\ match_product w profile p = Ret (Some r))
  /\ at_least k r.
Proof.
  intros Hfair Hl.
  destruct (Z.le_gt_cases max_workers 0) as [Hw|Hw].
  { rewrite match_products_refused in Hl by assumption. discriminate. }
  destruct (match_products_spec w profile as_completed products k max_workers limit)
    as (l' & Hl' & Hperm & _); [lia|].
  rewrite Hl in Hl'. injection Hl' as <-.
  split.
  - intros H. apply (Permutation_in _ Hperm), collect_In in H as [[p H] Hk].
    split; [|assumption].
    apply (Permutation_in _ (Hfair _)), in_map_iff in H as (p' & Heq & Hin).
    injection Heq as <- Hp. now exists p'.
  - intros [(p & Hin & Hp) Hk].
    apply (Permutation_in _ (Permutation_sym Hperm)), collect_In.
    split; [|assumption]. exists p.
    apply (Permutation_in _ (Permutation_sym (Hfair _))), in_map_iff.
    exists p. split; [now rewrite Hp | assumption].
Qed.

End MatcherFacts.

(** * Properties of the matcher *)

Module MatcherProps.
Import Model Reply Analyzer Matcher MatchSpec MatcherFacts Examples.

Lemma get_dict (d : list (string * pyval)) (key : string) (default : pyval) :
  Py.get (PyDict d) key default = Ret (Py.dict_get d key default).
Proof. reflexivity. Qed.

Lemma dict_get_absent (d : list (string * pyval)) (key : string) (default : pyval) :
  (forall v, ~ In (key, v) d) -> Py.dict_get d key default = default.
Proof.
  induction d as [|[k v] d IH]; intros Habs; simpl; [reflexivity|].
  destruct (String.eqb_spec k key) as [->|_].
  - exfalso. apply (Habs v). now left.
  - apply IH. intros v' H. apply (Habs v'). now right.
Qed.

Lemma match_product_Some (w : World) (profile : StyleProfile) (product : Product)
    (r : MatchResult) :
  match_product w profile product = Ret (Some r) <->
  exists d, reply_object w profile product d /\ r = result_of product d.
Proof.
  unfold match_product, reply_object, loads. split.
  - destruct (PyStr.nonempty (image_url product)); simpl; [|discriminate].
    destruct (_fetch_image w (image_url product)) as [[data media_type]|]; [|discriminate].
    destruct (_build_profile_context w profile) as [context|e]; simpl; [|discriminate].
    destruct (messages_create w MODEL 500 _) as [reply|e] eqn:Hreply; simpl; [|discriminate].
    destruct (first_text reply) as [t|e] eqn:Ht; simpl; [|discriminate].
    destruct (json_loads w _) as [v|] eqn:Hv; simpl; [|discriminate].
    destruct v as [| | | | |l|d]; simpl; try discriminate.
    intros [= <-]. exists d. split; [|reflexivity].
    split; [reflexivity|]. exists data, media_type, context, reply, t. auto.
  - intros (d & (Himg & data & media_type & context & reply & t
                 & Hf & Hc & Hreply & Ht & Hv) & ->).
    rewrite Himg, Hf, Hc. simpl. rewrite Hreply. simpl. rewrite Ht. simpl.
    rewrite Hv. reflexivity.
Qed.

(** C3, amended. A result of [match_product] carries as score the value
    the JSON object of the reply holds under the key "score", whatever
    it is, and the integer 0 when the object has no such key. *)
Theorem C3_score_is_the_value_of_the_reply (w : World) (profile : StyleProfile)
    (product : Product) (r : MatchResult) :
  match_product w profile product = Ret (Some r) ->
  exists d, reply_object w profile product d /\
            score r = Py.dict_get d "score" (PyInt 0) /\
            ((forall v, ~ In ("score", v) d) -> score r = PyInt 0).
Proof.
  intros H. apply match_product_Some in H as (d & Hd & ->).
  exists d. split; [assumption|]. split; [reflexivity|].
  intros Habs. simpl. now apply dict_get_absent.
Qed.

Lemma C3_witness :
  exists d, reply_object (scoring "7" (PyInt 7)) minimalist coat d /\
            score (scored coat (PyInt 7)) = Py.dict_get d "score" (PyInt 0) /\
            ((forall v, ~ In ("score", v) d) -> score (scored coat (PyInt 7)) = PyInt 0).
Proof.
  apply (C3_score_is_the_value_of_the_reply (scoring "7" (PyInt 7)) minimalist coat).
  vm_compute. reflexivity.
Defined.

(** C3 as stated fails: the model answers [{"score": 42}] and the result
    carries 42, neither an integer from 1 to 10 nor the default 0. *)
Lemma C3_counterexample :
  match_product (scoring "42" (PyInt 42)) minimalist coat = Ret (Some (scored coat (PyInt 42)))
  /\ ~ (in_1_10 (score (scored coat (PyInt 42))) \/ score (scored coat (PyInt 42)) = PyInt 0).
Proof.
  split; [vm_compute; reflexivity|].
  intros [(z & [= <-] & Hz)|[=]]. lia.
Qed.

(** A result whose score is not a number is built by [match_product]
    and dropped by [match_products]: comparing it with the threshold
    raises inside the [try]. *)
Example score_that_is_text :
  match_product (scoring high (PyStr "high")) minimalist coat
    = Ret (Some (scored coat (PyStr "high")))
  /\ match_products (scoring high (PyStr "high")) minimalist in_order [coat] 0 3 None
      = Ret [].
Proof. split; vm_compute; reflexivity. Qed.

(** Raising the threshold can only remove results. *)
Lemma threshold_monotone (w : World) (profile : StyleProfile)
    (order order' : list future -> list future)
    (products : list Product) (k k' max_workers : Z) (limit : option Z)
    (results results' : list MatchResult) :
  yields_each_once order -> yields_each_once order' -> k' <= k ->
  match_products w profile order products k max_workers limit = Ret results ->
  match_products w profile order' products k' max_workers limit = Ret results' ->
  forall r, In r results -> In r results'.
Proof.
  intros Hfair Hfair' Hle Hres Hres' r Hr.
  apply (match_products_In _ _ _ _ _ _ _ _ r Hfair Hres) in Hr as [Hp Hr].
  apply (match_products_In _ _ _ _ _ _ _ _ r Hfair' Hres').
  split; [assumption|]. now apply (at_least_weaken k).
Qed.

(** C5, amended. With the outcome of each product fixed and whatever the
    order of completion of the two runs, every result of
    [match_products(products, min_score=k)] has [score >= k], and for
    [k >= 0] is also a result of [match_products(products, min_score=0)]. *)
Theorem C5_threshold_filters_the_results_of_zero (w : World) (profile : StyleProfile)
    (order_k order_0 : list future -> list future)
    (products : list Product) (k max_workers : Z) (limit : option Z) :
  yields_each_once order_k -> yields_each_once order_0 -> 0 < max_workers ->
  exists results_k results_0,
    match_products w profile order_k products k max_workers limit = Ret results_k /\
    match_products w profile order_0 products 0 max_workers limit = Ret results_0 /\
    (forall r, In r results_k -> at_least k r) /\
    (0 <= k -> forall r, In r results_k -> In r results_0).
Proof.
  intros Hk H0 Hw.
  destruct (match_products_spec w profile order_k products k max_workers limit Hw)
    as (lk & Hlk & _).
  destruct (match_products_spec w profile order_0 products 0 max_workers limit Hw)
    as (l0 & Hl0 & _).
  exists lk, l0. split; [assumption|]. split; [assumption|]. split.
  - intros r Hr. now apply (match_products_In _ _ _ _ _ _ _ _ r Hk Hlk) in Hr.
  - intros Hpos. exact (threshold_monotone _ _ _ _ _ _ _ _ _ _ _ Hk H0 Hpos Hlk Hl0).
Qed.

Lemma C5_witness :
  exists results_k results_0,
    match_products (scoring "7" (PyInt 7)) minimalist in_order [coat] 5 3 None = Ret results_k /\
    match_products (scoring "7" (PyInt 7)) minimalist in_order [coat] 0 3 None = Ret results_0 /\
    (forall r, In r results_k -> at_least 5 r) /\
    (0 <= 5 -> forall r, In r results_k -> In r results_0).
Proof.
  apply (C5_threshold_filters_the_results_of_zero
           (scoring "7" (PyInt 7)) minimalist in_order in_order [coat] 5 3 None).
  - intros fs. reflexivity.
  - intros fs. reflexivity.
  - lia.
Defined.

(** C5 as stated fails for a negative threshold: the model answers
    [{"score": -3}]; with [min_score=-5] the result is returned, with
    [min_score=0] it is not. *)
Lemma C5_counterexample :
  match_products (scoring "-3" (PyInt (-3))) minimalist in_order [coat] (-5) 3 None
    = Ret [scored coat (PyInt (-3))]
  /\ match_products (scoring "-3" (PyInt (-3))) minimalist in_order [coat] 0 3 None = Ret []
  /\ ~ (forall r, In r [scored coat (PyInt (-3))] -> In r []).
Proof.
  split; [vm_compute; reflexivity|]. split; [vm_compute; reflexivity|].
  intros H. exact (H _ (or_introl eq_refl)).
Qed.

(** C6. [match_products] returns a list whenever the pool can be
    built, and the list is sorted by score, highest first: of two
    adjacent results the earlier has a score [>=] the score of the
    later. With [max_workers <= 0] the pool raises. *)
Theorem C6_results_sorted_by_score_descending (w : World) (profile : StyleProfile)
    (as_completed : list future -> list future)
    (products : list Product) (min_score max_workers : Z) (limit : option Z) :
  match match_products w profile as_completed products min_score max_workers limit with
  | Ret results => 0 < max_workers /\ Sorted score_ge results
  | Raise e => max_workers <= 0 /\ e = ValueError "max_workers must be greater than 0"
  end.
Proof.
  destruct (Z.le_gt_cases max_workers 0) as [Hw|Hw].
  - rewrite match_products_refused by assumption. now split.
  - destruct (match_products_spec w profile as_completed products
                min_score max_workers limit) as (l & -> & _ & Hs); [lia|].
    split; [lia | assumption].
Qed.



(** A negative [limit] is truthy and cuts from the end, as a slice
    does. *)
Example negative_limit_cuts_from_the_end :
  dispatched [coat; coat; coat] (Some (-1)) = [coat; coat]
  /\ dispatched [coat] (Some (-1)) = [].
Proof. split; reflexivity. Qed.


End MatcherProps.

(** * Properties of the analyzer *)

Module AnalyzerProps.
Import Reply Analyzer AnalyzerSpec Examples.

(** ** The loop over the paths *)




(** ** From the reply to the profile *)



(** The scenario of a reply fenced as JSON: the text read is the text
    of the object, as when the object comes bare. *)
Example fenced_reply_reads_as_bare :
  PyStr.strip (clean_markdown ("```json" +:+ Matcher.nl +:+ "{}" +:+ Matcher.nl +:+ "```"))
  = PyStr.strip (clean_markdown "{}").
Proof. reflexivity. Qed.

(** ** [analyze_style_images] *)





(** C7. A profile serialized and deserialized is the profile: through
    [to_dict] and [from_dict], and through [save_profile] and
    [load_profile] whenever the file can be written. All eight fields
    come back equal. *)
Theorem C7_style_profile_round_trip (profile : StyleProfile) (fs : Files) (path : string) :
  from_dict (to_dict profile) = Ret profile
  /\ match save_profile fs profile path with
     | Ret fs' => load_profile fs' path = Ret profile
     | Raise e => can_write fs path = false /\ e = OSError
     end.
Proof.
  assert (from_dict (to_dict profile) = Ret profile) as Hrt
    by (destruct profile; reflexivity).
  split; [assumption|].
  unfold save_profile, load_profile. destruct (can_write fs path); [|now split].
  simpl. now rewrite lookup_insert_eq.
Qed.




(** A path that exists and cannot be read is not skipped: the error of
    [open] leaves the call. *)
Example existing_path_that_cannot_be_read :
  analyze_style_images a_directory ["looks"] = Raise OSError.
Proof. reflexivity. Qed.



End AnalyzerProps.

(** * What the core operations let out *)

Module CoreProps.
Import Model Dom Scrapers Reply Analyzer Matcher.
Import MatchSpec MatcherFacts AnalyzerSpec AnalyzerProps Examples.











End CoreProps.

(** * Further facts about the text primitives *)

Module TextFacts.
Import PyStr PyStrFacts TextSpec.

Lemma prefix_cons (c : ascii) (p s : string) :
  String.prefix (String c p) (String c s) = String.prefix p s.
Proof. simpl. now destruct (ascii_dec c c). Qed.

Lemma prefix_cons_inv (a c : ascii) (p s : string) :
  String.prefix (String a p) (String c s) = true -> a = c /\ String.prefix p s = true.
Proof. simpl. destruct (ascii_dec a c); [auto | discriminate]. Qed.

Lemma prefix_refl (s : string) : String.prefix s s = true.
Proof. induction s as [|c s IH]; [reflexivity|]. now rewrite prefix_cons. Qed.

Lemma prefix_trans (a : string) : forall b c,
  String.prefix a b = true -> String.prefix b c = true -> String.prefix a c = true.
Proof.
  induction a as [|x a IH]; intros b c Hab Hbc; [apply prefix_empty|].
  destruct b as [|y b]; [discriminate|]. destruct c as [|z c]; [discriminate|].
  apply prefix_cons_inv in Hab as [-> Hab]. apply prefix_cons_inv in Hbc as [-> Hbc].
  rewrite prefix_cons. now apply (IH b).
Qed.

Lemma prefix_app (p : string) : forall s,
  String.prefix p s = true -> s = p +:+ drop (String.length p) s.
Proof.
  induction p as [|a p IH]; intros s H; [reflexivity|].
  destruct s as [|c s]; [discriminate|].
  apply prefix_cons_inv in H as [-> H]. rewrite append_cons. simpl.
  f_equal. now apply IH.
Qed.

Lemma prefix_append (p a b : string) :
  String.prefix p a = true -> String.prefix p (a +:+ b) = true.
Proof.
  revert a. induction p as [|x p IH]; intros a H; [apply prefix_empty|].
  destruct a as [|y a]; [discriminate|].
  apply prefix_cons_inv in H as [-> H]. rewrite append_cons, prefix_cons. now apply IH.
Qed.

Lemma prefix_self_append (p b : string) : String.prefix p (p +:+ b) = true.
Proof. apply prefix_append, prefix_refl. Qed.

Lemma drop_append (p b : string) : drop (String.length p) (p +:+ b) = b.
Proof. induction p as [|c p IH]; [now destruct b | exact IH]. Qed.

Lemma append_assoc (a b c : string) : (a +:+ b) +:+ c = a +:+ (b +:+ c).
Proof. induction a as [|x a IH]; [reflexivity|]. now rewrite !append_cons, IH. Qed.

Lemma length_append (a b : string) :
  String.length (a +:+ b) = (String.length a + String.length b)%nat.
Proof. induction a as [|c a IH]; [reflexivity|]. rewrite append_cons. simpl. now rewrite IH. Qed.

Lemma nonempty_append_l (a b : string) : nonempty a = true -> nonempty (a +:+ b) = true.
Proof. now destruct a. Qed.

Lemma nonempty_append_r (a b : string) : nonempty b = true -> nonempty (a +:+ b) = true.
Proof. destruct a; [now rewrite append_empty_l | reflexivity]. Qed.

(** ** [split] through [before] and [after] *)

Lemma split_go_skip (sep a r cur : string) :
  split_go sep (a +:+ r) (String.length a) cur = split_go sep r O cur.
Proof.
  induction a as [|c a IH]; [reflexivity|].
  rewrite append_cons. exact IH.
Qed.

Lemma split_go_unfold (sep : string) (s : string) : forall cur,
  nonempty sep = true ->
  split_go sep s O cur =
  match after sep s with
  | Some r => (cur +:+ before sep s) :: split_go sep r O EmptyString
  | None => [cur +:+ before sep s]
  end.
Proof.
  intros cur Hsep. revert cur. induction s as [|c s IH]; intros cur.
  - simpl. now rewrite append_empty_r.
  - cbn [split_go before after].
    destruct (String.prefix sep (String c s)) eqn:Hp.
    + rewrite append_empty_r. f_equal.
      destruct sep as [|a sep]; [discriminate|].
      apply prefix_cons_inv in Hp as [-> Hp].
      rewrite (prefix_app _ _ Hp) at 1.
      replace (String.length (String c sep) - 1)%nat with (String.length sep)
        by (simpl; lia).
      rewrite split_go_skip. reflexivity.
    + rewrite IH. destruct (after sep s); now rewrite append_snoc.
Qed.

Lemma split0_before (s sep : string) :
  nonempty sep = true -> split0 s sep = before sep s.
Proof.
  intros Hsep. unfold split0, split. rewrite split_go_unfold by assumption.
  now destruct (after sep s).
Qed.

Lemma split1_after (s sep r : string) :
  nonempty sep = true -> after sep s = Some r -> split1 s sep = before sep r.
Proof.
  intros Hsep Hr. unfold split1, split.
  rewrite split_go_unfold, Hr by assumption. simpl.
  rewrite split_go_unfold by assumption. now destruct (after sep r).
Qed.

Lemma before_prefix (sep s : string) : String.prefix (before sep s) s = true.
Proof.
  induction s as [|c s IH]; [reflexivity|]. cbn [before].
  destruct (String.prefix sep (String c s)); [apply prefix_empty|].
  now rewrite prefix_cons.
Qed.

(** what stands before the first occurrence of [sep] holds no [sep] *)
Lemma before_free (sep s : string) :
  nonempty sep = true -> contains sep (before sep s) = false.
Proof.
  intros Hsep. induction s as [|c s IH].
  - simpl. now destruct sep.
  - cbn [before]. destruct (String.prefix sep (String c s)) eqn:Hp.
    + simpl. now destruct sep.
    + cbn [contains]. rewrite IH, orb_false_r.
      destruct (String.prefix sep (String c (before sep s))) eqn:Hq; [|reflexivity].
      rewrite <- Hp. symmetry. apply (prefix_trans _ _ _ Hq).
      rewrite prefix_cons. apply before_prefix.
Qed.

Lemma contains_after (sep s : string) :
  nonempty sep = true -> contains sep s = true -> exists r, after sep s = Some r.
Proof.
  intros Hsep. induction s as [|c s IH]; cbn [contains after].
  - destruct sep; discriminate.
  - destruct (String.prefix sep (String c s)); [eauto | exact IH].
Qed.

Lemma not_contains_before (sep s : string) :
  contains sep s = false -> before sep s = s.
Proof.
  induction s as [|c s IH]; [reflexivity|]. cbn [contains before].
  destruct (String.prefix sep (String c s)); [discriminate|].
  simpl. intros H. now rewrite IH.
Qed.

(** Text free of the first character of [sep] holds no [sep], and stands
    as it is before a [sep] that follows it. *)
Lemma free_of_cons (c x : ascii) (s : string) :
  free_of c (String x s) <-> c <> x /\ free_of c s.
Proof.
  unfold free_of. cbn [contains]. simpl.
  destruct (ascii_dec c x) as [->|Hne]; rewrite ?prefix_empty; simpl.
  - split; [discriminate | intros [H _]; now contradiction H].
  - tauto.
Qed.

Lemma free_of_append (c : ascii) (a b : string) :
  free_of c (a +:+ b) <-> free_of c a /\ free_of c b.
Proof.
  induction a as [|x a IH].
  - rewrite append_empty_l. unfold free_of at 2. simpl. tauto.
  - rewrite append_cons, !free_of_cons, IH. tauto.
Qed.

Lemma free_no_sep (c : ascii) (sep' s : string) :
  free_of c s -> contains (String c sep') s = false.
Proof.
  induction s as [|x s IH]; [reflexivity|].
  intros H. apply free_of_cons in H as [Hne H]. cbn [contains]. rewrite (IH H).
  simpl. now destruct (ascii_dec c x).
Qed.

Lemma before_after_append (c : ascii) (sep' pre x : string) :
  free_of c pre ->
  before (String c sep') (pre +:+ String c sep' +:+ x) = pre
  /\ after (String c sep') (pre +:+ String c sep' +:+ x) = Some x.
Proof.
  induction pre as [|y pre IH]; intros Hfree.
  - rewrite append_empty_l. rewrite append_cons. cbn [before after].
    rewrite prefix_cons, prefix_self_append. split; [reflexivity|].
    f_equal. simpl. apply drop_append.
  - apply free_of_cons in Hfree as [Hne Hfree]. rewrite append_cons.
    cbn [before after].
    assert (String.prefix (String c sep') (String y (pre +:+ String c sep' +:+ x)) = false)
      as -> by (simpl; now destruct (ascii_dec c y)).
    destruct (IH Hfree) as [-> ->]. now split.
Qed.

Lemma contains_append (sep pre x : string) :
  contains sep (pre +:+ sep +:+ x) = true.
Proof.
  induction pre as [|y pre IH].
  - rewrite append_empty_l. destruct sep as [|c sep]; [now destruct x|].
    rewrite append_cons. cbn [contains]. now rewrite prefix_cons, prefix_self_append.
  - rewrite append_cons. cbn [contains]. rewrite IH. apply orb_true_r.
Qed.

End TextFacts.

(** * Further facts about the scrapers *)

Module ScraperMore.
Import Model Dom Scrapers Spec Examples PyStrFacts TextSpec TextFacts.

(** ** What a product of a scraper is built from *)

Lemma sezane_product (soup : node) (p : Product) :
  p ∈ Sezane.parse_tree soup ->
  exists link base_url full_url,
    Sezane.normalize link = Some (base_url, full_url) /\
    Sezane._parse_product_link link base_url full_url = Ret p.
Proof.
  intros Hp. destruct (ScraperFacts.sezane_first_wins soup) as (_ & H & _).
  destruct (H p Hp) as (link & [b f] & (_ & _ & _ & Hn & _) & Hb).
  now exists link, b, f.
Qed.

Lemma arket_product (soup : node) (p : Product) :
  p ∈ Arket.parse_tree soup ->
  exists link base_url,
    Arket.normalize link = Some base_url /\
    Arket._parse_product_link link base_url = Ret p.
Proof.
  intros Hp. destruct (ScraperFacts.arket_first_wins soup) as (_ & H & _).
  destruct (H p Hp) as (link & b & (_ & _ & _ & Hn & _) & Hb).
  now exists link, b.
Qed.

(** ** Absolute URLs *)

Lemma image_url_of_absolute (BASE_URL : string) (img : option node) (u : string) :
  PyStr.startswith BASE_URL "http" = true ->
  image_url_of BASE_URL img = Ret u -> empty_or_absolute u.
Proof.
  unfold image_url_of, empty_or_absolute. intros Hbase.
  destruct img as [img|]; [|intros [= <-]; now left].
  set (first := match or_str (get img "src") (get img "data-src") with
                | Some s => s | None => EmptyString end).
  destruct (negb (PyStr.nonempty first) && PyStr.nonempty (get_or_empty img "srcset"))
    eqn:Hsrcset.
  - destruct (PyStr.item _ 0) as [v|e]; simpl; [|discriminate].
    destruct (PyStr.nonempty v) eqn:Hv; simpl.
    + destruct (PyStr.startswith v "http") eqn:Hh; simpl; intros [= <-]; [now right|].
      right. destruct (PyStr.startswith v "//"); [reflexivity|].
      now apply prefix_append.
    + intros [= <-]. left. now destruct v.
  - simpl. destruct (PyStr.nonempty first) eqn:Hv; simpl.
    + destruct (PyStr.startswith first "http") eqn:Hh; simpl; intros [= <-]; [now right|].
      right. destruct (PyStr.startswith first "//"); [reflexivity|].
      now apply prefix_append.
    + intros [= <-]. left. now destruct first.
Qed.

(** cutting at a character that "http" does not hold keeps the "http" *)
Lemma before_keeps_http (c : ascii) (s : string) :
  free_of c "http" -> PyStr.startswith s "http" = true ->
  PyStr.startswith (before (String c EmptyString) s) "http" = true.
Proof.
  unfold PyStr.startswith. intros Hfree Hs.
  rewrite (prefix_app _ _ Hs). generalize (PyStr.drop (String.length "http") s) as r.
  intros r. apply free_of_cons in Hfree as [H1 Hfree].
  apply free_of_cons in Hfree as [H2 Hfree]. apply free_of_cons in Hfree as [H3 Hfree].
  apply free_of_cons in Hfree as [H4 _].
  rewrite !append_cons, append_empty_l. cbn [before String.prefix].
  destruct (ascii_dec c "h"); [contradiction|]. destruct (ascii_dec c "t"); [contradiction|].
  destruct (ascii_dec c "p"); [contradiction|].
  rewrite !prefix_cons. apply prefix_empty.
Qed.

Lemma full_url_absolute (BASE_URL href : string) :
  PyStr.startswith BASE_URL "http" = true ->
  PyStr.startswith (if PyStr.startswith href "http" then href else BASE_URL +:+ href)
                   "http" = true.
Proof.
  intros Hbase. destruct (PyStr.startswith href "http") eqn:H; [assumption|].
  now apply prefix_append.
Qed.

Lemma sezane_absolute (soup : node) (p : Product) :
  p ∈ Sezane.parse_tree soup ->
  PyStr.startswith (url p) "http" = true /\ empty_or_absolute (image_url p).
Proof.
  intros Hp. apply sezane_product in Hp as (link & b & f & Hn & Hb).
  unfold Sezane.normalize in Hn. destruct (_ || _); [discriminate|].
  injection Hn as <- <-. unfold Sezane._parse_product_link in Hb.
  destruct (image_url_of _ _) as [u|e] eqn:Hu; simpl in Hb; [|discriminate].
  injection Hb as <-. simpl. split.
  - rewrite split0_before by reflexivity.
    apply before_keeps_http; [reflexivity | now apply full_url_absolute].
  - exact (image_url_of_absolute Sezane.BASE_URL _ _ eq_refl Hu).
Qed.

Lemma arket_absolute (soup : node) (p : Product) :
  p ∈ Arket.parse_tree soup ->
  PyStr.startswith (url p) "http" = true /\ empty_or_absolute (image_url p).
Proof.
  intros Hp. apply arket_product in Hp as (link & b & Hn & Hb).
  unfold Arket.normalize in Hn. destruct (_ || _); [discriminate|].
  injection Hn as <-. unfold Arket._parse_product_link in Hb.
  destruct (image_url_of _ _) as [u|e] eqn:Hu; simpl in Hb; [|discriminate].
  injection Hb as <-. simpl. split.
  - rewrite split0_before by reflexivity.
    apply before_keeps_http; [reflexivity | now apply full_url_absolute].
  - exact (image_url_of_absolute Arket.BASE_URL _ _ eq_refl Hu).
Qed.

(** X1. Every product either scraper returns has an absolute URL (it
    starts with "http"), and an image URL that is empty or absolute:
    relative and protocol-relative addresses of the page are resolved
    against the retailer's origin. *)
Theorem X1_scraped_urls_are_absolute (w : World) (html : string) (p : Product) :
  p ∈ Sezane.parse_products w html \/ p ∈ Arket.parse_products w html ->
  PyStr.startswith (url p) "http" = true /\ empty_or_absolute (image_url p).
Proof.
  intros [Hp|Hp]; [now apply sezane_absolute in Hp | now apply arket_absolute in Hp].
Qed.

Lemma X1_witness :
  PyStr.startswith (url will_jumper) "http" = true
  /\ empty_or_absolute (image_url will_jumper).
Proof.
  apply (X1_scraped_urls_are_absolute (page_world sezane_variants_page) "<html>").
  left. vm_compute. apply list_elem_of_here.
Defined.

(** ** Names *)

Lemma title_nonempty (s : string) :
  PyStr.nonempty s = true -> PyStr.nonempty (PyStr.title s) = true.
Proof.
  destruct s as [|c s]; [discriminate|]. intros _. unfold PyStr.title. simpl.
  destruct (PyStr.is_lower c); [reflexivity|]. now destruct (PyStr.is_upper c).
Qed.

Lemma replace_char_nonempty (a b : ascii) (s : string) :
  PyStr.nonempty s = true -> PyStr.nonempty (PyStr.replace_char a b s) = true.
Proof. now destruct s. Qed.

Lemma sub_sezane_x_nonempty (s : string) :
  PyStr.nonempty s = true -> PyStr.nonempty (Sezane.sub_sezane_x s) = true.
Proof.
  destruct s as [|c s]; [discriminate|]. intros _.
  unfold Sezane.sub_sezane_x. cbn [Sezane.sub_sezane_x_go].
  destruct (Sezane.match_sezane_x (String c s)); [|reflexivity].
  now apply nonempty_append_l.
Qed.

Lemma search_slug_nonempty (s g : string) :
  Sezane.search_slug s = Some g -> PyStr.nonempty g = true.
Proof.
  induction s as [|c s IH]; [discriminate|]. cbn [Sezane.search_slug].
  destruct (String.prefix "/product/" (String c s)); [|exact IH].
  destruct (PyStr.nonempty (fst _)) eqn:Hg; [now intros [= <-] | exact IH].
Qed.

Lemma search_p_nonempty (s g : string) :
  Arket.search_p s = Some g -> PyStr.nonempty g = true.
Proof.
  induction s as [|c s IH]; [discriminate|]. cbn [Arket.search_p].
  destruct (String.prefix "/p/" (String c s)); [|exact IH].
  destruct (PyStr.nonempty (fst _)) eqn:Hg; [now intros [= <-] | exact IH].
Qed.

Lemma search_html_nonempty (s g : string) :
  Arket.search_html s = Some g -> PyStr.nonempty g = true.
Proof.
  induction s as [|c s IH]; [discriminate|]. cbn [Arket.search_html].
  destruct (if Ascii.eqb c "/" then _ else None) as [g'|]; [|exact IH].
  destruct (PyStr.nonempty g') eqn:Hg; [now intros [= <-] | exact IH].
Qed.

Lemma slug_name_nonempty (g : string) :
  PyStr.nonempty g = true ->
  PyStr.nonempty (PyStr.title (PyStr.replace_char "-" " " g)) = true.
Proof. intros H. now apply title_nonempty, replace_char_nonempty. Qed.

Lemma sezane_name (soup : node) (p : Product) :
  p ∈ Sezane.parse_tree soup -> PyStr.nonempty (name p) = true.
Proof.
  intros Hp. apply sezane_product in Hp as (link & b & f & _ & Hb).
  unfold Sezane._parse_product_link in Hb.
  destruct (image_url_of _ _) as [u|e]; simpl in Hb; [|discriminate].
  injection Hb as <-. simpl.
  destruct (Sezane.search_slug b) as [g|] eqn:Hg; [|reflexivity].
  apply sub_sezane_x_nonempty, slug_name_nonempty. exact (search_slug_nonempty _ _ Hg).
Qed.

Lemma arket_name_choice (found : option string) (fallback : string) :
  PyStr.nonempty fallback = true ->
  PyStr.nonempty match (if Arket.no_name found then None else found) with
                 | Some s => s
                 | None => fallback
                 end = true.
Proof.
  intros Hf. destruct found as [s|]; [|assumption]. simpl.
  now destruct (PyStr.nonempty s) eqn:Hs.
Qed.

Lemma arket_name (soup : node) (p : Product) :
  p ∈ Arket.parse_tree soup -> PyStr.nonempty (name p) = true.
Proof.
  intros Hp. apply arket_product in Hp as (link & b & _ & Hb).
  unfold Arket._parse_product_link in Hb.
  destruct (image_url_of _ _) as [u|e]; simpl in Hb; [|discriminate].
  injection Hb as <-. simpl. apply arket_name_choice.
  destruct (Arket.search_p b) as [g|] eqn:Hg.
  - apply slug_name_nonempty. exact (search_p_nonempty _ _ Hg).
  - destruct (Arket.search_html b) as [g|] eqn:Hh; [|reflexivity].
    apply slug_name_nonempty. exact (search_html_nonempty _ _ Hh).
Qed.

(** X2. No product of either scraper has an empty name: when the page
    gives none, the name is read off the URL, and "Unknown" is the last
    resort. *)
Theorem X2_scraped_names_are_not_empty (w : World) (html : string) (p : Product) :
  p ∈ Sezane.parse_products w html \/ p ∈ Arket.parse_products w html ->
  PyStr.nonempty (name p) = true.
Proof.
  intros [Hp|Hp]; [now apply sezane_name in Hp | now apply arket_name in Hp].
Qed.

Lemma X2_witness : PyStr.nonempty (name wool_coat_black) = true.
Proof.
  apply (X2_scraped_names_are_not_empty (page_world arket_fragment_page) "<html>").
  right. vm_compute. apply list_elem_of_here.
Defined.

(** ** The volatile suffix does not reach the key *)

Lemma prefix_append_stable (c : ascii) (p : string) : forall a b,
  free_of c p -> ~ free_of c a -> String.prefix p (a +:+ b) = String.prefix p a.
Proof.
  induction p as [|x p IH]; intros a b Hp Ha; [now rewrite !prefix_empty|].
  destruct a as [|y a]; [now contradiction Ha|].
  apply free_of_cons in Hp as [Hx Hp]. rewrite append_cons. simpl.
  destruct (ascii_dec x y) as [<-|_]; [|reflexivity].
  apply IH; [assumption|]. intros Hfree. apply Ha. now apply free_of_cons.
Qed.

Lemma contains_append_l (x a b : string) :
  PyStr.contains x a = true -> PyStr.contains x (a +:+ b) = true.
Proof.
  induction a as [|c a IH]; cbn [PyStr.contains].
  - rewrite orb_false_r. intros H. rewrite append_empty_l.
    destruct x; [|discriminate]. destruct b; reflexivity.
  - rewrite append_cons. cbn [PyStr.contains]. intros H.
    apply orb_true_iff in H as [H|H].
    + change (String c (a +:+ b)) with (String c a +:+ b).
      now rewrite (prefix_append _ _ _ H).
    + rewrite (IH H). apply orb_true_r.
Qed.

Lemma contains_length (x a : string) :
  PyStr.contains x a = true -> (String.length x <= String.length a)%nat.
Proof.
  induction a as [|c a IH]; cbn [PyStr.contains].
  - rewrite orb_false_r. destruct x; [simpl; lia | discriminate].
  - intros H. apply orb_true_iff in H as [H|H].
    + apply prefix_app in H. rewrite H, length_append. lia.
    + apply IH in H. simpl. lia.
Qed.

Lemma completed_append (BASE_URL href rest : string) :
  ~ free_of "/" href ->
  completed BASE_URL (href +:+ rest) = completed BASE_URL href +:+ rest.
Proof.
  intros Hslash. unfold completed, PyStr.startswith.
  rewrite (prefix_append_stable "/") by (assumption || reflexivity).
  destruct (String.prefix "http" href); [reflexivity|]. now rewrite append_assoc.
Qed.

Lemma contains_not_free (c : ascii) (x a : string) :
  PyStr.contains (String c x) a = true -> ~ free_of c a.
Proof. intros H Hfree. now rewrite (free_no_sep c x a Hfree) in H. Qed.

(** cutting at [c] a text that is free of [c] up to a [c] gives that
    text *)
Lemma cut_suffix (c : ascii) (u rest : string) :
  free_of c u ->
  PyStr.split0 (u +:+ String c EmptyString +:+ rest) (String c EmptyString) = u
  /\ PyStr.split0 u (String c EmptyString) = u.
Proof.
  intros Hfree. rewrite !split0_before by reflexivity. split.
  - exact (proj1 (before_after_append c EmptyString u rest Hfree)).
  - now apply not_contains_before.
Qed.

Lemma sezane_normalize_completed (link : loc) :
  Sezane.normalize link =
  let href := get_or_empty (fst link) "href" in
  if negb (PyStr.nonempty href) || negb (PyStr.contains "/product/" href) then None
  else Some (PyStr.split0 (completed Sezane.BASE_URL href) "#",
             completed Sezane.BASE_URL href).
Proof. reflexivity. Qed.

Lemma arket_normalize_completed (link : loc) :
  Arket.normalize link =
  let href := get_or_empty (fst link) "href" in
  if negb (PyStr.nonempty href)
     || (negb (PyStr.contains "/p/" href) && negb (PyStr.contains "/product" href))
  then None
  else Some (PyStr.split0 (completed Arket.BASE_URL href) "?").
Proof. reflexivity. Qed.

Lemma completed_free (c : ascii) (BASE_URL href : string) :
  free_of c BASE_URL -> free_of c href -> free_of c (completed BASE_URL href).
Proof.
  intros Hb Hh. unfold completed. destruct (PyStr.startswith href "http"); [assumption|].
  now apply free_of_append.
Qed.

Lemma contains_nonempty (x a : string) :
  PyStr.nonempty x = true -> PyStr.contains x a = true -> PyStr.nonempty a = true.
Proof. intros Hx H. destruct a; [|reflexivity]. now destruct x. Qed.

(** X3. The volatile suffix never reaches the deduplication key. On
    Sezane a reference and the same reference followed by any fragment
    normalize to one URL; on Arket a reference and the same reference
    followed by any query string do. *)
Theorem X3_suffix_does_not_change_the_key (link link' : loc) (href suffix : string) :
  get_or_empty (fst link) "href" = href ->
  (free_of "#" href -> PyStr.contains "/product/" href = true ->
   get_or_empty (fst link') "href" = href +:+ "#" +:+ suffix ->
   exists u full_url full_url',
     Sezane.normalize link = Some (u, full_url)
     /\ Sezane.normalize link' = Some (u, full_url'))
  /\ (free_of "?" href ->
      PyStr.contains "/p/" href = true \/ PyStr.contains "/product" href = true ->
      get_or_empty (fst link') "href" = href +:+ "?" +:+ suffix ->
      exists u, Arket.normalize link = Some u /\ Arket.normalize link' = Some u).
Proof.
  intros Hhref. split.
  - intros Hfree Hprod Hhref'.
    assert (~ free_of "/" href) as Hlen by exact (contains_not_free _ _ _ Hprod).
    assert (PyStr.nonempty href = true) as Hne
      by (now apply (contains_nonempty "/product/")).
    destruct (cut_suffix "#" (completed Sezane.BASE_URL href) suffix) as [Hcut Hid].
    { now apply completed_free. }
    exists (completed Sezane.BASE_URL href), (completed Sezane.BASE_URL href),
           (completed Sezane.BASE_URL href +:+ "#" +:+ suffix).
    rewrite !sezane_normalize_completed, Hhref, Hhref'. cbn zeta.
    rewrite Hne, Hprod, (nonempty_append_l _ _ Hne), (contains_append_l _ _ _ Hprod).
    simpl negb. cbn [orb]. rewrite completed_append by exact Hlen.
    now rewrite Hcut, Hid.
  - intros Hfree Hprod Hhref'.
    assert (~ free_of "/" href) as Hlen'
      by (destruct Hprod as [H|H]; exact (contains_not_free _ _ _ H)).
    assert (PyStr.nonempty href = true) as Hne.
    { destruct Hprod as [H|H];
        [now apply (contains_nonempty "/p/") | now apply (contains_nonempty "/product")]. }
    destruct (cut_suffix "?" (completed Arket.BASE_URL href) suffix) as [Hcut Hid].
    { now apply completed_free. }
    exists (completed Arket.BASE_URL href).
    rewrite !arket_normalize_completed, Hhref, Hhref'. cbn zeta.
    assert (negb (PyStr.contains "/p/" href) && negb (PyStr.contains "/product" href) = false)
      as Hsel by (destruct Hprod as [-> | ->]; simpl; [reflexivity | apply andb_false_r]).
    assert (negb (PyStr.contains "/p/" (href +:+ "?" +:+ suffix))
            && negb (PyStr.contains "/product" (href +:+ "?" +:+ suffix)) = false) as Hsel'.
    { destruct Hprod as [H|H]; rewrite (contains_append_l _ _ _ H); simpl;
        [reflexivity | apply andb_false_r]. }
    rewrite Hne, Hsel, (nonempty_append_l _ _ Hne), Hsel'. simpl.
    rewrite completed_append by exact Hlen'. now rewrite Hcut, Hid.
Qed.

Lemma X3_witness :
  exists u full_url full_url',
    Sezane.normalize (Elem "a" [("href", "/product/will-jumper/ecru")] [], [])
      = Some (u, full_url)
    /\ Sezane.normalize (Elem "a" [("href", "/product/will-jumper/ecru#size-s")] [], [])
       = Some (u, full_url').
Proof.
  apply (proj1 (X3_suffix_does_not_change_the_key
                  (Elem "a" [("href", "/product/will-jumper/ecru")] [], [])
                  (Elem "a" [("href", "/product/will-jumper/ecru#size-s")] [], [])
                  "/product/will-jumper/ecru" "size-s" eq_refl));
    reflexivity.
Defined.

(** ** What a scrape gives when the fetch fails *)

(** X4. The static scraper returns the empty list when the request
    ends in an [httpx.HTTPError], when the status is not a success, and
    when the body is empty; otherwise it returns what [parse_products]
    reads in the body. Another exception of the client is let out. *)
Theorem X4_static_scrape_outcomes (w : World) :
  Sezane.scrape_new_arrivals w =
  match http_get w Sezane.get_new_arrivals_url with
  | Ret r =>
      if is_success r && PyStr.nonempty (text r)
      then Ret (Sezane.parse_products w (text r))
      else Ret []
  | Raise e => if is_HTTPError e then Ret [] else Raise e
  end.
Proof.
  unfold Sezane.scrape_new_arrivals, Scrapers.scrape_new_arrivals,
    Scrapers.fetch_page, raise_for_status.
  destruct (http_get w Sezane.get_new_arrivals_url) as [r|e]; simpl.
  - destruct (is_success r); simpl; [|reflexivity]. now destruct (PyStr.nonempty (text r)).
  - now destruct (is_HTTPError e).
Qed.



End ScraperMore.

(** * Further facts about the reading of a reply *)

Module ReplyMore.
Import PyStr PyStrFacts TextSpec TextFacts Reply.

(** X6. Whatever the model answers, the text handed to [json.loads]
    holds no markdown fence: [clean_markdown] never leaves three
    backticks in a row. *)
Theorem X6_no_fence_is_left (response_text : string) :
  contains "```" (clean_markdown response_text) = false.
Proof.
  unfold clean_markdown.
  destruct (contains "```json" response_text).
  - rewrite split0_before by reflexivity. now apply before_free.
  - destruct (contains "```" response_text) eqn:H; [|exact H].
    rewrite split0_before by reflexivity. now apply before_free.
Qed.

Lemma prefix_cancel (a p s : string) :
  String.prefix (a +:+ p) (a +:+ s) = String.prefix p s.
Proof. induction a as [|x a IH]; [reflexivity|]. now rewrite !append_cons, prefix_cons. Qed.

Lemma prefix_head_ne (c y : ascii) (p s : string) :
  c <> y -> String.prefix (String c p) (String y s) = false.
Proof. intros Hne. simpl. now destruct (ascii_dec c y). Qed.

Lemma free_prefix_false (c : ascii) (x s : string) :
  free_of c s -> String.prefix (String c x) s = false.
Proof.
  destruct s as [|y s]; [reflexivity|]. intros H. apply free_of_cons in H as [Hne _].
  simpl. now destruct (ascii_dec c y).
Qed.

(** a character that [p] does not hold ends the comparison with [p] *)
Lemma prefix_append_break (c : ascii) (p : string) : forall a z,
  free_of c p -> String.prefix p (a +:+ String c z) = String.prefix p a.
Proof.
  induction p as [|x p IH]; intros a z Hp; [now rewrite !prefix_empty|].
  apply free_of_cons in Hp as [Hx Hp]. destruct a as [|y a].
  - rewrite append_empty_l. simpl. destruct (ascii_dec x c); [congruence | reflexivity].
  - rewrite append_cons. simpl. destruct (ascii_dec x y); [now apply IH | reflexivity].
Qed.

Lemma before_skip_free (c : ascii) (sep' s z : string) :
  free_of c s ->
  before (String c sep') (s +:+ z) = s +:+ before (String c sep') z.
Proof.
  induction s as [|y s IH]; intros Hfree; [reflexivity|].
  apply free_of_cons in Hfree as [Hne Hfree]. rewrite !append_cons. cbn [before].
  assert (String.prefix (String c sep') (String y (s +:+ z)) = false) as ->
    by (simpl; now destruct (ascii_dec c y)).
  now rewrite IH.
Qed.

Lemma contains_skip_free (c : ascii) (sep' s z : string) :
  free_of c s ->
  contains (String c sep') (s +:+ z) = contains (String c sep') z.
Proof.
  induction s as [|y s IH]; intros Hfree; [reflexivity|].
  apply free_of_cons in Hfree as [Hne Hfree]. rewrite append_cons. cbn [contains].
  assert (String.prefix (String c sep') (String y (s +:+ z)) = false) as ->
    by (simpl; now destruct (ascii_dec c y)).
  now rewrite IH.
Qed.

(** Behind a closing fence and text free of backticks, the next
    ["```json"] can only be the fence itself followed by "json". *)
Lemma before_json_fence (post : string) :
  free_of "`" post ->
  before "```json" ("```" +:+ post) = EmptyString
  \/ before "```json" ("```" +:+ post) = "```" +:+ before "```json" post.
Proof.
  intros Hfree.
  change ("```" +:+ post) with (String "`" (String "`" (String "`" post))).
  cbn [before].
  destruct (String.prefix "```json" (String "`" (String "`" (String "`" post))));
    [now left | right].
  assert (String.prefix "```json" (String "`" (String "`" post)) = false) as ->.
  { change (String.prefix ("``" +:+ "`json") ("``" +:+ post) = false).
    rewrite prefix_cancel. now apply free_prefix_false. }
  assert (String.prefix "```json" (String "`" post) = false) as ->.
  { change (String.prefix ("`" +:+ "``json") ("`" +:+ post) = false).
    rewrite prefix_cancel. now apply free_prefix_false. }
  reflexivity.
Qed.

Lemma first_fence_cut (s y : string) :
  free_of "`" s -> y = EmptyString \/ String.prefix "```" y = true ->
  before "```" (s +:+ y) = s.
Proof.
  intros Hfree Hy. rewrite before_skip_free by assumption.
  destruct Hy as [->|Hy].
  - simpl. apply append_empty_r.
  - destruct y as [|c y]; [discriminate|]. cbn [before]. rewrite Hy. apply append_empty_r.
Qed.

Lemma json_fenced (pre s post : string) :
  free_of "`" pre -> free_of "`" s -> free_of "`" post ->
  clean_markdown (pre +:+ "```json" +:+ s +:+ "```" +:+ post) = s.
Proof.
  intros Hpre Hs Hpost. unfold clean_markdown.
  rewrite contains_append.
  destruct (before_after_append "`" "``json" pre (s +:+ "```" +:+ post) Hpre) as [_ Hafter].
  rewrite (split1_after _ "```json" _ eq_refl Hafter), split0_before by reflexivity.
  rewrite before_skip_free by assumption.
  apply first_fence_cut; [assumption|].
  destruct (before_json_fence post Hpost) as [-> | ->]; [now left | right].
  apply (prefix_self_append "```").
Qed.

Lemma no_json_fence (pre s post : string) :
  free_of "`" pre -> free_of "`" s -> free_of "`" post ->
  String.prefix "json" s = false -> String.prefix "json" post = false ->
  contains "```json" (pre +:+ "```" +:+ s +:+ "```" +:+ post) = false.
Proof.
  intros Hpre Hs Hpost Hjs Hjp.
  rewrite contains_skip_free by assumption.
  assert (contains "```json" ("```" +:+ post) = false) as Hclose.
  { change ("```" +:+ post) with (String "`" (String "`" (String "`" post))).
    cbn [contains].
    change (String.prefix "```json" (String "`" (String "`" (String "`" post))))
      with (String.prefix ("```" +:+ "json") ("```" +:+ post)).
    change (String.prefix "```json" (String "`" (String "`" post)))
      with (String.prefix ("``" +:+ "`json") ("``" +:+ post)).
    change (String.prefix "```json" (String "`" post))
      with (String.prefix ("`" +:+ "``json") ("`" +:+ post)).
    rewrite !prefix_cancel, Hjp, !(free_prefix_false "`") by assumption.
    simpl. now apply free_no_sep. }
  change ("```" +:+ s +:+ "```" +:+ post)
    with (String "`" (String "`" (String "`" (s +:+ "```" +:+ post)))).
  cbn [contains].
  change (String.prefix "```json" (String "`" (String "`" (String "`" (s +:+ "```" +:+ post)))))
    with (String.prefix ("```" +:+ "json") ("```" +:+ (s +:+ "```" +:+ post))).
  change (String.prefix "```json" (String "`" (String "`" (s +:+ "```" +:+ post))))
    with (String.prefix ("``" +:+ "`json") ("``" +:+ (s +:+ "```" +:+ post))).
  change (String.prefix "```json" (String "`" (s +:+ "```" +:+ post)))
    with (String.prefix ("`" +:+ "``json") ("`" +:+ (s +:+ "```" +:+ post))).
  rewrite !prefix_cancel.
  change (s +:+ "```" +:+ post) with (s +:+ String "`" ("``" +:+ post)) at 1.
  rewrite (prefix_append_break "`") by reflexivity. rewrite Hjs.
  rewrite contains_skip_free, Hclose by assumption.
  destruct s as [|c s].
  - rewrite append_empty_l. reflexivity.
  - apply free_of_cons in Hs as [Hne _]. rewrite append_cons.
    now rewrite !(prefix_head_ne _ _ _ _ Hne).
Qed.

Lemma plain_fenced (pre s post : string) :
  free_of "`" pre -> free_of "`" s -> free_of "`" post ->
  String.prefix "json" s = false -> String.prefix "json" post = false ->
  clean_markdown (pre +:+ "```" +:+ s +:+ "```" +:+ post) = s.
Proof.
  intros Hpre Hs Hpost Hjs Hjp. unfold clean_markdown.
  rewrite no_json_fence, contains_append by assumption.
  destruct (before_after_append "`" "``" pre (s +:+ "```" +:+ post) Hpre) as [_ Hafter].
  rewrite (split1_after _ "```" _ eq_refl Hafter), split0_before by reflexivity.
  rewrite (first_fence_cut s ("```" +:+ post) Hs)
    by (right; apply (prefix_self_append "```")).
  apply not_contains_before. now apply free_no_sep.
Qed.

Lemma unfenced (s : string) : free_of "`" s -> clean_markdown s = s.
Proof.
  intros Hs. unfold clean_markdown.
  now rewrite !(free_no_sep "`") by assumption.
Qed.

(** X7. A reply whose JSON text [s] comes inside a markdown fence reads
    as [s] itself, the text around the fence being dropped: for text free
    of backticks, fenced as JSON, or fenced plainly when neither [s] nor
    what follows the fence starts with "json". A reply without backticks
    is read as it is. *)
Theorem X7_fenced_reply_reads_as_its_content (pre s post : string) :
  free_of "`" pre -> free_of "`" s -> free_of "`" post ->
  clean_markdown (pre +:+ "```json" +:+ s +:+ "```" +:+ post) = s
  /\ (String.prefix "json" s = false -> String.prefix "json" post = false ->
      clean_markdown (pre +:+ "```" +:+ s +:+ "```" +:+ post) = s)
  /\ clean_markdown s = s.
Proof.
  intros Hpre Hs Hpost. split; [now apply json_fenced|].
  split; [now apply plain_fenced | now apply unfenced].
Qed.

Lemma X7_witness :
  clean_markdown ("Here you are: " +:+ "```json" +:+ "{}" +:+ "```" +:+ " Enjoy.") = "{}"
  /\ (String.prefix "json" "{}" = false -> String.prefix "json" " Enjoy." = false ->
      clean_markdown ("Here you are: " +:+ "```" +:+ "{}" +:+ "```" +:+ " Enjoy.") = "{}")
  /\ clean_markdown "{}" = "{}".
Proof.
  apply (X7_fenced_reply_reads_as_its_content "Here you are: " "{}" " Enjoy.");
    reflexivity.
Defined.

End ReplyMore.

(** * Further facts about the matcher *)

Module MatcherMore.
Import Model Reply Analyzer Matcher MatchSpec MatcherFacts MatchMore Examples.
Import TextSpec.

Lemma dispatched_has_image (products : list Product) (limit : option Z) (p : Product) :
  In p (dispatched products limit) ->
  In p products /\ PyStr.nonempty (image_url p) = true.
Proof.
  intros H.
  assert (In p (List.filter (fun p => PyStr.nonempty (image_url p)) products)) as Hf.
  { unfold dispatched, slice_to in H.
    destruct limit as [n|]; [|assumption].
    destruct (n =? 0); [assumption|].
    destruct (n <? 0); apply list_elem_of_In in H; apply list_elem_of_In;
      eapply subseteq_take; exact H. }
  now apply filter_In in Hf.
Qed.

Lemma match_product_keeps_product (w : World) (profile : StyleProfile)
    (p : Product) (r : MatchResult) :
  match_product w profile p = Ret (Some r) -> product r = p.
Proof.
  intros H. apply MatcherProps.match_product_Some in H as (d & _ & ->). reflexivity.
Qed.

(** X8. Every result [match_products] returns is the result of one of
    the products it was given, and of one that has an image: a product
    without [image_url] never gets a result. *)
Theorem X8_results_come_from_products_with_an_image (w : World) (profile : StyleProfile)
    (as_completed : list future -> list future)
    (products : list Product) (min_score max_workers : Z) (limit : option Z)
    (results : list MatchResult) (r : MatchResult) :
  yields_each_once as_completed ->
  match_products w profile as_completed products min_score max_workers limit
    = Ret results ->
  In r results ->
  In (product r) products /\ PyStr.nonempty (image_url (product r)) = true
  /\ match_product w profile (product r) = Ret (Some r).
Proof.
  intros Hfair Hres Hr.
  apply (match_products_In _ _ _ _ _ _ _ _ r Hfair Hres) in Hr as [(p & Hp & Hm) _].
  rewrite (match_product_keeps_product _ _ _ _ Hm).
  apply dispatched_has_image in Hp as [Hin Himg]. auto.
Qed.

Lemma X8_witness :
  In (product (scored coat (PyInt 7))) [coat]
  /\ PyStr.nonempty (image_url (product (scored coat (PyInt 7)))) = true
  /\ match_product (scoring "7" (PyInt 7)) minimalist (product (scored coat (PyInt 7)))
     = Ret (Some (scored coat (PyInt 7))).
Proof.
  apply (X8_results_come_from_products_with_an_image
           (scoring "7" (PyInt 7)) minimalist in_order [coat] 5 3 None
           [scored coat (PyInt 7)]).
  - intros fs. reflexivity.
  - vm_compute. reflexivity.
  - now left.
Defined.

(** ** How many results *)

Lemma collect_kept (completed : list future) (k : Z) :
  collect completed k [] = flat_map (kept k) completed.
Proof.
  induction completed as [|[p o] rest IH]; [reflexivity|].
  cbn [collect flat_map]. unfold kept at 1. cbn [snd].
  destruct o as [[r|]|e]; simpl; try exact IH.
  destruct (Py.ge_int (score r) k) as [[|]|e]; simpl; try exact IH.
  rewrite collect_acc. simpl. now rewrite IH.
Qed.

Lemma kept_short (k : Z) (f : future) : (length (kept k f) <= 1)%nat.
Proof.
  unfold kept. destruct (snd f) as [[r|]|e]; simpl; try lia.
  destruct (Py.ge_int (score r) k) as [[|]|e]; simpl; lia.
Qed.

Lemma flat_map_kept_length (k : Z) (fs : list future) :
  (length (flat_map (kept k) fs) <= length fs)%nat.
Proof.
  induction fs as [|f fs IH]; [simpl; lia|].
  cbn [flat_map]. rewrite length_app. pose proof (kept_short k f). simpl. lia.
Qed.

Lemma slice_to_length {A : Type} (l : list A) (n : Z) :
  0 < n -> (length (slice_to l n) <= Z.to_nat n)%nat.
Proof.
  intros Hn. unfold slice_to. destruct (Z.ltb_spec n 0); [lia|].
  rewrite length_take. lia.
Qed.

(** X9. [match_products] returns at most one result per product
    submitted, and a positive [limit] bounds both: no more than [limit]
    products are submitted to the model, and no more than [limit]
    results come back. *)
Theorem X9_limit_bounds_calls_and_results (w : World) (profile : StyleProfile)
    (as_completed : list future -> list future)
    (products : list Product) (min_score max_workers : Z) (limit : option Z)
    (results : list MatchResult) :
  yields_each_once as_completed ->
  match_products w profile as_completed products min_score max_workers limit
    = Ret results ->
  (length results <= length (dispatched products limit))%nat
  /\ (length (dispatched products limit) <= length products)%nat
  /\ forall n, limit = Some n -> 0 < n ->
       (length (dispatched products limit) <= Z.to_nat n)%nat
       /\ (length results <= Z.to_nat n)%nat.
Proof.
  intros Hfair Hres.
  assert (length results <= length (dispatched products limit))%nat as Hlen.
  { destruct (Z.le_gt_cases max_workers 0) as [Hw|Hw].
    { rewrite match_products_refused in Hres by assumption. discriminate. }
    destruct (match_products_spec w profile as_completed products
                min_score max_workers limit) as (l & Hl & Hperm & _); [lia|].
    rewrite Hres in Hl. injection Hl as <-.
    rewrite (Permutation_length Hperm), collect_kept.
    etransitivity; [apply flat_map_kept_length|].
    now rewrite (Permutation_length (Hfair _)), length_map. }
  split; [assumption|]. split.
  - unfold dispatched, slice_to.
    pose proof (filter_length_le (fun p => PyStr.nonempty (image_url p)) products) as Hf.
    destruct limit as [n|]; [|assumption].
    destruct (n =? 0); [assumption|].
    destruct (n <? 0); rewrite length_take; lia.
  - intros n -> Hn.
    assert (length (dispatched products (Some n)) <= Z.to_nat n)%nat as Hd.
    { unfold dispatched. destruct (Z.eqb_spec n 0); [lia|]. now apply slice_to_length. }
    split; [assumption | lia].
Qed.

Lemma X9_witness :
  (length [scored coat (PyInt 7)] <= length (dispatched [coat; coat; coat] (Some 1%Z)))%nat
  /\ (length (dispatched [coat; coat; coat] (Some 1%Z)) <= length [coat; coat; coat])%nat
  /\ forall n, Some 1%Z = Some n -> 0 < n ->
       (length (dispatched [coat; coat; coat] (Some 1%Z)) <= Z.to_nat n)%nat
       /\ (length [scored coat (PyInt 7)] <= Z.to_nat n)%nat.
Proof.
  apply (X9_limit_bounds_calls_and_results
           (scoring "7" (PyInt 7)) minimalist in_order [coat; coat; coat] 5 3 (Some 1%Z)).
  - intros fs. reflexivity.
  - vm_compute. reflexivity.
Defined.

(** ** The order of completion *)



(** ** The best matches *)

Lemma fge_trans (x y z : pyfloat) :
  Py.fge x y = true -> Py.fge y z = true -> Py.fge x z = true.
Proof.
  destruct x as [|[|]|p], y as [|[|]|q], z as [|[|]|r]; simpl; try congruence.
  intros H1 H2. apply Qle_bool_iff. apply Qle_bool_iff in H1, H2.
  eapply Qle_trans; eassumption.
Qed.

Lemma score_ge_trans (a b c : MatchResult) :
  score_ge a b -> score_ge b c -> score_ge a c.
Proof.
  intros (x & y & Hx & Hy & Hxy) (y' & z & Hy' & Hz & Hyz).
  rewrite Hy in Hy'. injection Hy' as <-.
  exists x, z. eauto using fge_trans.
Qed.

Lemma sorted_app_ge (l1 l2 : list MatchResult) :
  Sorted score_ge (l1 ++ l2) ->
  forall a b, In a l1 -> In b l2 -> score_ge a b.
Proof.
  intros Hs. apply Sorted_StronglySorted in Hs; [|exact score_ge_trans].
  induction l1 as [|r l1 IH]; intros a b Ha Hb; [destruct Ha|].
  simpl in Hs. apply StronglySorted_inv in Hs as [Hs Hall].
  destruct Ha as [->|Ha]; [|now apply IH].
  rewrite List.Forall_forall in Hall. apply Hall, in_or_app. now right.
Qed.

(** X11. For a [top_n] that is not negative, [get_top_matches] returns
    the first [top_n] results of [match_products] run with three
    workers and no limit (all of them when there are fewer), and these
    are the best: each result returned scores at least as high as each
    result left out. *)
Theorem X11_top_matches_are_the_best (w : World) (profile : StyleProfile)
    (as_completed : list future -> list future)
    (products : list Product) (top_n min_score : Z) :
  0 <= top_n ->
  exists top rest,
    match_products w profile as_completed products min_score 3 None = Ret (top ++ rest)
    /\ get_top_matches w profile as_completed products top_n min_score = Ret top
    /\ length top = Nat.min (Z.to_nat top_n) (length (top ++ rest))
    /\ forall a b, In a top -> In b rest -> score_ge a b.
Proof.
  intros Hn.
  destruct (match_products_spec w profile as_completed products min_score 3 None)
    as (l & Hl & _ & Hs); [lia|].
  exists (take (Z.to_nat top_n) l), (drop (Z.to_nat top_n) l).
  rewrite take_drop. split; [assumption|]. split; [|split].
  - unfold get_top_matches. rewrite Hl. simpl. unfold slice_to.
    destruct (Z.ltb_spec top_n 0); [lia | reflexivity].
  - apply length_take.
  - apply sorted_app_ge. now rewrite take_drop.
Qed.

Lemma X11_witness :
  exists top rest,
    match_products (scoring "7" (PyInt 7)) minimalist in_order [coat; coat] 5 3 None
      = Ret (top ++ rest)
    /\ get_top_matches (scoring "7" (PyInt 7)) minimalist in_order [coat; coat] 1 5 = Ret top
    /\ length top = Nat.min (Z.to_nat 1) (length (top ++ rest))
    /\ forall a b, In a top -> In b rest -> score_ge a b.
Proof.
  apply (X11_top_matches_are_the_best
           (scoring "7" (PyInt 7)) minimalist in_order [coat; coat] 1 5).
  lia.
Defined.

(** ** A profile of the annotated types *)

Lemma all_str_strings (l : list string) : all_str (map PyStr l) = Ret l.
Proof. induction l as [|s l IH]; [reflexivity|]. simpl. now rewrite IH. Qed.

Lemma append_joined_returns (label : string) (v : pyval) (parts : list string) :
  list_of_str v -> exists parts', append_joined label v parts = Ret parts'.
Proof.
  intros [l ->]. unfold append_joined, join_val.
  destruct (Py.truthy (PyList (map PyStr l))); [|eauto].
  rewrite all_str_strings. simpl. eauto.
Qed.

Lemma build_profile_context_returns (w : World) (profile : StyleProfile) :
  well_typed profile -> exists s, _build_profile_context w profile = Ret s.
Proof.
  intros (H1 & H2 & H3 & H4 & H5 & H6 & H7 & _).
  unfold _build_profile_context.
  repeat match goal with
  | H : list_of_str ?v |- context [append_joined ?label ?v ?parts] =>
      let parts' := fresh "parts" in let E := fresh "E" in
      destruct (append_joined_returns label v parts H) as [parts' E];
      rewrite E; clear E H; cbn [mbind exc_bind]
  end.
  eauto.
Qed.

(** X12. With a profile whose fields have the annotated types (lists of
    [str], and a [str] summary), building the profile context returns,
    and [match_product] returns for every product: it gives a result or
    [None], and raises nothing. *)
Theorem X12_typed_profile_never_raises (w : World) (profile : StyleProfile)
    (product : Product) :
  well_typed profile ->
  (exists s, _build_profile_context w profile = Ret s)
  /\ exists o, match_product w profile product = Ret o.
Proof.
  intros Ht. destruct (build_profile_context_returns w profile Ht) as [s Hs].
  split; [eauto|].
  unfold match_product.
  destruct (negb (PyStr.nonempty (image_url product))); [eauto|].
  destruct (_fetch_image w (image_url product)) as [[data media_type]|]; [|eauto].
  rewrite Hs. cbn [mbind exc_bind].
  match goal with |- context [match ?m with Ret r => Ret (Some r) | Raise _ => Ret None end] =>
    destruct m end; eauto.
Qed.

Lemma X12_witness :
  (exists s, _build_profile_context (scoring "7" (PyInt 7)) minimalist = Ret s)
  /\ exists o, match_product (scoring "7" (PyInt 7)) minimalist coat = Ret o.
Proof.
  apply (X12_typed_profile_never_raises (scoring "7" (PyInt 7)) minimalist coat).
  unfold well_typed, list_of_str, minimalist. simpl.
  repeat split.
  - now exists ["navy blue"; "warm beige"].
  - now exists ["French minimalist"].
  - now exists [].
  - now exists [].
  - now exists ["linen"].
  - now exists [].
  - now exists ["neon"].
  - now exists "Understated and tailored.".
Defined.

(** ** The image sent to the model *)

(** X13. When [_fetch_image] gives an image, the download succeeded, the
    data are the base64 text of the body, and the media type starts with
    [image/] and carries no parameter: no [;] is left in it. *)
Theorem X13_fetched_image_has_a_bare_image_type (w : World) (url data media_type : string) :
  _fetch_image w url = Some (data, media_type) ->
  PyStr.startswith media_type "image/" = true
  /\ PyStr.contains ";" media_type = false
  /\ exists r, http_get w url = Ret r /\ is_success r = true
               /\ data = b64encode w (content r).
Proof.
  unfold _fetch_image.
  destruct (http_get w url) as [r|e]; [|discriminate]. cbn [mbind exc_bind].
  unfold raise_for_status.
  destruct (is_success r) eqn:Hok; [|discriminate]. cbn [mbind exc_bind].
  set (ct := match content_type r with Some t => t | None => _ end).
  destruct (PyStr.contains ";" ct) eqn:Hc.
  - destruct (PyStr.startswith (PyStr.split0 ct ";") "image/") eqn:Hs; [|discriminate].
    simpl. intros [= <- <-]. split; [assumption|]. split; [|eauto].
    rewrite TextFacts.split0_before by reflexivity.
    now apply TextFacts.before_free.
  - destruct (PyStr.startswith ct "image/") eqn:Hs; [|discriminate].
    simpl. intros [= <- <-]. split; [assumption|]. split; [assumption | eauto].
Qed.

Lemma X13_witness :
  PyStr.startswith "image/jpeg" "image/" = true
  /\ PyStr.contains ";" "image/jpeg" = false
  /\ exists r, http_get (scoring "7" (PyInt 7)) (image_url coat) = Ret r
               /\ is_success r = true
               /\ "base64:JFIF" = b64encode (scoring "7" (PyInt 7)) (content r).
Proof.
  apply (X13_fetched_image_has_a_bare_image_type
           (scoring "7" (PyInt 7)) (image_url coat) "base64:JFIF" "image/jpeg").
  reflexivity.
Defined.

End MatcherMore.

(** * Further facts about the analyzer *)

Module AnalyzerMore.
Import Reply Analyzer AnalyzerSpec AnalyzeMore Examples.

Lemma media_type_of_table (path : string) : In (media_type_of path) image_types.
Proof.
  unfold media_type_of. generalize (PyStr.lower (path_suffix path)). intros s.
  unfold media_types, image_types. cbn [Dom.assoc].
  repeat match goal with
  | |- context [String.eqb ?a s] => destruct (String.eqb a s)
  end; simpl; tauto.
Qed.

(** What the loop returns are the blocks of the files that exist, in
    order, after the content it started from. *)
Lemma load_images_loaded (w : World) (paths : list string) : forall content content',
  load_images w paths content = Ret content' ->
  exists images, content' = content ++ images /\
                 Forall2 (loaded w) (List.filter (path_exists w) paths) images.
Proof.
  induction paths as [|path rest IH]; intros content content'; simpl.
  - intros [= <-]. exists []. split; [now rewrite app_nil_r | constructor].
  - destruct (path_exists w path) eqn:Hex; simpl; [|apply IH].
    unfold _load_image. destruct (read_bytes w path) as [bytes|e] eqn:Hb; simpl; [|discriminate].
    intros H. apply IH in H as (images & -> & Himg).
    exists (ImageBlock (media_type_of path) (b64encode w bytes) :: images).
    split; [now rewrite <- app_assoc|].
    constructor; [now exists bytes | assumption].
Qed.

Lemma loaded_image_block (w : World) (path : string) (blk : block) :
  loaded w path blk -> image_block blk.
Proof.
  intros (bytes & _ & ->). eexists _, _. split; [reflexivity | apply media_type_of_table].
Qed.

(** X14. Whenever [analyze_style_images] returns a profile, the model
    was asked once, with the images of the files that exist among the
    first ten paths, in order, followed by the instruction text: at
    least one image and at most ten, each with a media type of the
    table; and the profile is what the reply parses to. *)
Theorem X14_request_of_a_returned_analysis (w : World) (image_paths : list string)
    (profile : StyleProfile) :
  analyze_style_images w image_paths = Ret profile ->
  exists images reply,
    Forall2 (loaded w) (present w image_paths) images
    /\ (1 <= length images <= 10)%nat
    /\ Forall image_block images
    /\ messages_create w MODEL 1500 (images ++ [TextBlock ANALYSIS_PROMPT]) = Ret reply
    /\ parse_response w reply = Ret profile.
Proof.
  unfold analyze_style_images.
  destruct image_paths as [|p ps]; [discriminate|].
  destruct (load_images w (take 10 (p :: ps)) []) as [content|e] eqn:Hload;
    simpl; [|discriminate].
  apply load_images_loaded in Hload as (images & -> & Himg).
  fold (present w (p :: ps)) in Himg. rewrite app_nil_l.
  destruct images as [|blk more]; [discriminate|]. cbv beta iota.
  destruct (messages_create w MODEL 1500 ((blk :: more) ++ [TextBlock ANALYSIS_PROMPT]))
    as [reply|e] eqn:Hcall; cbn [mbind exc_bind]; [|discriminate].
  intros Hparse. exists (blk :: more), reply.
  split; [assumption|]. split; [|split; [|split; assumption]].
  - split; [simpl; lia|].
    rewrite <- (Forall2_length _ _ _ Himg). unfold present.
    etransitivity; [apply filter_length_le|]. rewrite length_take. lia.
  - clear -Himg. induction Himg; constructor; eauto using loaded_image_block.
Qed.

Lemma X14_witness :
  exists images reply,
    Forall2 (loaded only_eleventh) (present only_eleventh ["looks/11.jpg"]) images
    /\ (1 <= length images <= 10)%nat
    /\ Forall image_block images
    /\ messages_create only_eleventh MODEL 1500 (images ++ [TextBlock ANALYSIS_PROMPT])
       = Ret reply
    /\ parse_response only_eleventh reply = Ret (mkStyleProfile
         (PyList []) (PyList []) (PyList []) (PyList []) (PyList []) (PyList [])
         (PyList []) (PyStr EmptyString)).
Proof.
  apply (X14_request_of_a_returned_analysis only_eleventh ["looks/11.jpg"]).
  vm_compute. reflexivity.
Defined.

(** ** The profile files *)




(** ** The images of analyze_style.py *)

Lemma extension_in_table (s : string) :
  existsb (String.eqb s) image_extensions = true <->
  exists t, Dom.assoc media_types s = Some t.
Proof.
  unfold image_extensions, media_types. cbn [existsb Dom.assoc].
  rewrite !(String.eqb_sym s).
  repeat match goal with
  | |- context [String.eqb ?a s] => destruct (String.eqb a s)
  end; simpl; (split; [intros H; try discriminate; eauto
                      | intros [t H]; try discriminate; reflexivity]).
Qed.

(** X23. The script analyze_style.py hands to the analyzer exactly the
    entries of the directory whose suffix, in lower case, is a key of
    the analyzer's table of media types: the media type of each image
    it sends is the one of its suffix, never the fallback. *)
Theorem X23_selected_images_have_the_type_of_their_suffix (iterdir : list string)
    (p : string) :
  In p (image_paths iterdir) <->
  In p iterdir
  /\ Dom.assoc media_types (PyStr.lower (path_suffix p)) = Some (media_type_of p).
Proof.
  unfold image_paths. rewrite filter_In, extension_in_table. unfold media_type_of.
  split; intros [Hin H]; (split; [assumption|]).
  - destruct H as [t ->]. reflexivity.
  - eauto.
Qed.

End AnalyzerMore.

(** * The products on disk *)

Module StoreFacts.
Import Model Dom Scrapers Analyzer Store Examples.

Lemma each_map {A B C : Type} (f : B -> outcome C) (g : A -> B) (h : A -> C)
    (l : list A) :
  (forall a, In a l -> f (g a) = Done (h a)) ->
  each f (map g l) = Done (map h l).
Proof.
  induction l as [|a l IH]; intros H; [reflexivity|].
  cbn [map each]. rewrite (H a (or_introl eq_refl)). cbn [mbind outcome_bind].
  rewrite IH by (intros; apply H; now right). reflexivity.
Qed.

(** X16. The products [load_products] of find_matches.py reads in the
    file [save_products] of shop.py wrote are the products saved, in
    order and with all nine fields. *)
Theorem X16_saved_products_load_back (fs fs' : Files) (now : string)
    (products : list Product) (path : string) :
  save_products fs now products path = Ret fs' ->
  load_products fs' path = Done (map of_product products).
Proof.
  unfold save_products. destruct (can_write fs path); [|discriminate].
  intros [= <-]. unfold load_products, json_load. cbn [documents].
  rewrite lookup_insert_eq. cbn.
  apply (each_map _ to_dict of_product). intros p _. now destruct p.
Qed.

Lemma X16_witness :
  load_products (mkFiles (<["latest_arrivals.json" :=
                   PyDict [ ("scraped_at", PyStr "2024-05-01T10:00:00");
                            ("total_products", PyInt 2);
                            ("products", PyList (map to_dict [will_jumper; coat])) ]]> ∅)
                         (fun _ => true))
                "latest_arrivals.json"
  = Done (map of_product [will_jumper; coat]).
Proof.
  apply (X16_saved_products_load_back (mkFiles ∅ (fun _ => true)) _
           "2024-05-01T10:00:00" [will_jumper; coat] "latest_arrivals.json").
  reflexivity.
Defined.

(** ** What the scrapers leave at the default *)

Lemma sezane_defaults (soup : node) (p : Product) :
  p ∈ Sezane.parse_tree soup ->
  category p = None /\ sizes p = [] /\ description p = None.
Proof.
  intros Hp. apply ScraperMore.sezane_product in Hp as (link & b & f & _ & Hb).
  unfold Sezane._parse_product_link in Hb.
  destruct (image_url_of _ _) as [u|e]; simpl in Hb; [|discriminate].
  injection Hb as <-. now split.
Qed.

Lemma arket_defaults (soup : node) (p : Product) :
  p ∈ Arket.parse_tree soup ->
  category p = None /\ sizes p = [] /\ description p = None.
Proof.
  intros Hp. apply ScraperMore.arket_product in Hp as (link & b & _ & Hb).
  unfold Arket._parse_product_link in Hb.
  destruct (image_url_of _ _) as [u|e]; simpl in Hb; [|discriminate].
  injection Hb as <-. now split.
Qed.

Lemma sezane_scraped (w : World) (products : list Product) (p : Product) :
  Sezane.scrape_new_arrivals w = Ret products -> In p products ->
  exists html, p ∈ Sezane.parse_products w html.
Proof.
  unfold Sezane.scrape_new_arrivals, Scrapers.scrape_new_arrivals.
  destruct (Scrapers.fetch_page w _) as [[h|]|e]; simpl; try discriminate.
  - destruct (PyStr.nonempty h); intros [= <-] Hp; [|destruct Hp].
    exists h. now apply list_elem_of_In.
  - intros [= <-] [].
Qed.

Lemma arket_scraped (w : World) (products : list Product) (p : Product) :
  Arket.scrape_new_arrivals w = Ret products -> In p products ->
  exists html, p ∈ Arket.parse_products w html.
Proof.
  unfold Arket.scrape_new_arrivals, Arket.scrape_new_arrivals_async, Arket.try_finally.
  destruct (browser_start w) as [[]|e]; simpl; [|discriminate].
  destruct (browser_stop w) as [[]|e]; [|discriminate].
  destruct (Arket.fetch_page w _) as [h|]; [|intros [= <-] []].
  destruct (PyStr.nonempty h); intros [= <-] Hp; [|destruct Hp].
  exists h. now apply list_elem_of_In.
Qed.

Lemma scrape_all_defaults (w : World) (products : list Product) (p : Product) :
  scrape_all w = Ret products -> In p products ->
  category p = None /\ sizes p = [] /\ description p = None.
Proof.
  unfold scrape_all.
  destruct (Sezane.scrape_new_arrivals w) as [s|e] eqn:Hs; simpl; [|discriminate].
  destruct (Arket.scrape_new_arrivals w) as [a|e] eqn:Ha; simpl; [|discriminate].
  intros [= <-] Hp. apply in_app_or in Hp as [Hp|Hp].
  - destruct (sezane_scraped _ _ _ Hs Hp) as [html H]. now apply sezane_defaults in H.
  - destruct (arket_scraped _ _ _ Ha Hp) as [html H]. now apply arket_defaults in H.
Qed.

(** X17. What a run of shop.py scrapes and saves, a later run with
    [--match-only] reads back unchanged: the loader of [main] passes
    six fields to the constructor, and the three it leaves out are at
    their defaults in every product [scrape_all] returns. *)
Theorem X17_match_only_reads_what_was_scraped (w : World) (fs fs' : Files)
    (now : string) (products : list Product) (products_path : string) :
  scrape_all w = Ret products ->
  save_products fs now products products_path = Ret fs' ->
  cached_products fs' products_path = Done (Some (map of_product products)).
Proof.
  intros Hscrape. unfold save_products.
  destruct (can_write fs products_path); [|discriminate].
  intros [= <-]. unfold cached_products. cbn [documents].
  rewrite lookup_insert_eq. cbn.
  rewrite (each_map _ to_dict of_product); [reflexivity|]. intros p Hp.
  destruct (scrape_all_defaults w products p Hscrape Hp) as (Hc & Hz & Hd).
  destruct p; simpl in *; subst. reflexivity.
Qed.

Lemma X17_witness :
  cached_products (mkFiles (<["latest_arrivals.json" :=
                     PyDict [ ("scraped_at", PyStr "2024-05-01T10:00:00");
                              ("total_products", PyInt 1);
                              ("products", PyList (map to_dict [will_jumper])) ]]> ∅)
                           (fun _ => true))
                  "latest_arrivals.json"
  = Done (Some (map of_product [will_jumper])).
Proof.
  apply (X17_match_only_reads_what_was_scraped (Sites.site sezane_variants_page)
           (mkFiles ∅ (fun _ => true)) _
           "2024-05-01T10:00:00" [will_jumper] "latest_arrivals.json").
  - vm_compute. reflexivity.
  - reflexivity.
Defined.

End StoreFacts.

(** * The products of the API, the engine, the score dots *)

Module BackendFacts.
Import Model Analyzer Store Backend Examples.

Lemma from_kwargs_to_dict (p : Product) : from_kwargs (Store.to_dict p) = Done (of_product p).
Proof. now destruct p. Qed.

Lemma each_map_kwargs (products : list Product) :
  each from_kwargs (map Store.to_dict products) = Done (map of_product products).
Proof.
  apply (StoreFacts.each_map _ Store.to_dict of_product).
  intros p _. apply from_kwargs_to_dict.
Qed.

Lemma from_kwargs_row (r : Row) : from_kwargs (Backend.to_dict r) = Failed (Raised TypeError).
Proof. now destruct r. Qed.

(** X18. Once the database answers with at least one row, the route
    [find_matches] of the API raises [TypeError] before any product is
    matched: the rows come with the keys [id] and [scraped_at], which
    the constructor of [Product] does not take. *)
Theorem X18_rows_of_the_database_are_refused (rows : list Row) (fs : Files)
    (products_file : string) :
  rows <> [] ->
  products_to_match (Some (Ret rows)) fs products_file = Failed (Raised TypeError).
Proof.
  destruct rows as [|r rows]; [congruence|]. intros _.
  unfold products_to_match, get_all_products. cbn [mbind exc_bind map each].
  now rewrite from_kwargs_row.
Qed.

Lemma X18_witness :
  products_to_match
    (Some (Ret [mkRow 1 "Wool Coat" "$120" "https://www.arket.com/p/wool-coat-123"
                      "https://img.example/coat.jpg" "Arket" None (PyList []) (PyList [])
                      None (Some "2024-05-01T10:00:00")]))
    (mkFiles ∅ (fun _ => true)) "latest_arrivals.json"
  = Failed (Raised TypeError).
Proof.
  apply (X18_rows_of_the_database_are_refused
           [mkRow 1 "Wool Coat" "$120" "https://www.arket.com/p/wool-coat-123"
                  "https://img.example/coat.jpg" "Arket" None (PyList []) (PyList [])
                  None (Some "2024-05-01T10:00:00")]).
  discriminate.
Defined.

(** X19. Without a database, or when the database cannot be read, the
    route matches the products of the file: for a file [save_products]
    of shop.py wrote, these are the products saved, in order and with
    all nine fields. *)
Theorem X19_without_database_the_saved_products_are_matched
    (database : option (exc (list Row))) (fs fs' : Files) (now : string)
    (products : list Product) (products_file : string) :
  database = None \/ (exists e, database = Some (Raise e)) ->
  save_products fs now products products_file = Ret fs' ->
  products_to_match database fs' products_file = Done (Some (map of_product products)).
Proof.
  intros Hdb. unfold save_products.
  destruct (can_write fs products_file); [|discriminate]. intros [= <-].
  assert (forall database',
            match database' with
            | Some query => match get_all_products query with
                            | Ret ps => Some ps | Raise _ => None end
            | None => None
            end = None ->
            products_to_match database' (mkFiles (<[products_file :=
              PyDict [ ("scraped_at", PyStr now);
                       ("total_products", PyInt (Z.of_nat (length products)));
                       ("products", PyList (map Store.to_dict products)) ]]> (documents fs))
              (can_write fs)) products_file
            = Done (Some (map of_product products))) as Hfile.
  { intros database' Hnone. unfold products_to_match. rewrite Hnone. cbn [documents].
    rewrite lookup_insert_eq. cbn.
    rewrite (each_map_kwargs products). reflexivity. }
  apply Hfile. destruct Hdb as [->|[e ->]]; reflexivity.
Qed.

Lemma X19_witness :
  products_to_match (Some (Raise OSError))
    (mkFiles (<["latest_arrivals.json" :=
                 PyDict [ ("scraped_at", PyStr "2024-05-01T10:00:00");
                          ("total_products", PyInt 2);
                          ("products", PyList (map Store.to_dict [will_jumper; coat])) ]]> ∅)
             (fun _ => true))
    "latest_arrivals.json"
  = Done (Some (map of_product [will_jumper; coat])).
Proof.
  apply (X19_without_database_the_saved_products_are_matched
           (Some (Raise OSError)) (mkFiles ∅ (fun _ => true)) _
           "2024-05-01T10:00:00" [will_jumper; coat] "latest_arrivals.json").
  - right. now exists OSError.
  - reflexivity.
Defined.

(** ** A file without products *)

Lemma dict_get_without_key (d : list (string * pyval)) (key : string) (default : pyval) :
  find_key d key = None -> Py.dict_get d key default = default.
Proof.
  induction d as [|[k v] d IH]; [reflexivity|]. simpl.
  destruct (String.eqb k key); [discriminate | exact IH].
Qed.

(** X20. A products file whose document is an object without the key
    [products] is read in two ways: [load_products] of find_matches.py
    takes it for a file of no products; the loader of shop.py and the
    route of the API raise [KeyError]. *)
Theorem X20_file_without_the_products_key (fs : Files) (path : string)
    (d : list (string * pyval)) :
  documents fs !! path = Some (PyDict d) ->
  find_key d "products" = None ->
  load_products fs path = Done []
  /\ cached_products fs path = Failed (KeyError "products")
  /\ products_to_match None fs path = Failed (KeyError "products").
Proof.
  intros Hfile Hkey.
  unfold load_products, cached_products, products_to_match, json_load.
  rewrite Hfile. cbn [mbind outcome_bind lift Py.get getitem].
  rewrite Hkey, (dict_get_without_key _ _ _ Hkey). now split.
Qed.

Lemma X20_witness :
  load_products (mkFiles (<["latest_arrivals.json" := PyDict [("total_products", PyInt 0)]]> ∅)
                         (fun _ => true)) "latest_arrivals.json" = Done []
  /\ cached_products (mkFiles (<["latest_arrivals.json" := PyDict [("total_products", PyInt 0)]]> ∅)
                              (fun _ => true)) "latest_arrivals.json"
     = Failed (KeyError "products")
  /\ products_to_match None
       (mkFiles (<["latest_arrivals.json" := PyDict [("total_products", PyInt 0)]]> ∅)
                (fun _ => true)) "latest_arrivals.json"
     = Failed (KeyError "products").
Proof.
  apply (X20_file_without_the_products_key _ "latest_arrivals.json"
           [("total_products", PyInt 0)]).
  - reflexivity.
  - reflexivity.
Defined.

(** ** The URL of the engine *)

Lemma replace_first_prefix (old new s : string) :
  PyStr.nonempty s = true -> String.prefix old s = true ->
  replace_first old new s = new +:+ PyStr.drop (String.length old) s.
Proof.
  destruct s as [|c s]; [discriminate|]. intros _ Hp. cbn [replace_first]. now rewrite Hp.
Qed.

(** X21. [get_engine] raises [RuntimeError] exactly when [DATABASE_URL]
    is not set or empty. Otherwise the engine is created with the URL
    of the variable, the scheme [postgres://] at its start rewritten to
    [postgresql://]: with a URL that starts with [postgres://] no
    engine is ever created. *)
Theorem X21_engine_url_has_the_scheme_of_the_dialect (DATABASE_URL : option string) :
  match get_engine DATABASE_URL with
  | inl _ => DATABASE_URL = None \/ DATABASE_URL = Some EmptyString
  | inr database_url =>
      PyStr.startswith database_url "postgres://" = false
      /\ exists v, DATABASE_URL = Some v /\ PyStr.nonempty v = true
         /\ database_url
            = if PyStr.startswith v "postgres://"
              then "postgresql://" +:+ PyStr.drop (String.length "postgres://") v
              else v
  end.
Proof.
  unfold get_engine. destruct DATABASE_URL as [v|]; [|now left].
  destruct (PyStr.nonempty v) eqn:Hv; simpl negb; cbv iota.
  - destruct (PyStr.startswith v "postgres://") eqn:Hs.
    + rewrite (replace_first_prefix _ _ _ Hv Hs). split.
      * unfold PyStr.startswith. now rewrite !PyStrFacts.append_cons.
      * exists v. rewrite Hs. auto.
    + split; [assumption|]. exists v. rewrite Hs. auto.
  - right. destruct v; [reflexivity | discriminate].
Qed.

End BackendFacts.

(** * The score dots of the feed *)

Module FeedFacts.
Import Reply Feed.

Lemma lt_int (i z : Z) : Py.lt (PyInt i) (PyInt z) = Ret (i <? z).
Proof.
  unfold Py.lt. simpl. unfold Qle_bool. simpl. rewrite !Z.mul_1_r.
  now rewrite Z.ltb_antisym.
Qed.

(** X22. For an integer score [generate_dots] gives ten dots, joined by
    the separator: the first [score] of them filled, none when the
    score is negative and all ten when it is above ten. For a score
    that is [None], a text, a list or an object it raises
    [TypeError]. *)
Theorem X22_ten_dots_of_which_the_score_are_filled :
  (forall z,
     let filled := Z.to_nat (Z.max 0 (Z.min z 10)) in
     generate_dots (PyInt z)
     = Ret (PyStr.join separator
              (replicate filled (dot true) ++ replicate (10 - filled) (dot false))))
  /\ generate_dots PyNone = Raise TypeError
  /\ (forall s, generate_dots (PyStr s) = Raise TypeError)
  /\ (forall l, generate_dots (PyList l) = Raise TypeError)
  /\ (forall d, generate_dots (PyDict d) = Raise TypeError).
Proof.
  split; [|now repeat split].
  intros z filled. unfold generate_dots. cbn [dots_from]. rewrite !lt_int.
  cbn [mbind exc_bind app]. subst filled.
  destruct (Z.le_gt_cases z 0) as [Hz|Hz].
  { rewrite !(proj2 (Z.ltb_ge _ _)) by lia.
    replace (Z.max 0 (Z.min z 10)) with 0 by lia. reflexivity. }
  destruct (Z.le_gt_cases 10 z) as [Hz'|Hz'].
  { rewrite !(proj2 (Z.ltb_lt _ _)) by lia.
    replace (Z.max 0 (Z.min z 10)) with 10 by lia. reflexivity. }
  assert (z = 1 \/ z = 2 \/ z = 3 \/ z = 4 \/ z = 5 \/ z = 6 \/ z = 7 \/ z = 8 \/ z = 9)
    as Hcases by lia.
  repeat (destruct Hcases as [->|Hcases]; [reflexivity|]). subst z. reflexivity.
Qed.

End FeedFacts.
